(** * Terraform registry download statistics: a model of the two scripts

    [src/All-providers-download-since-beginning.py] (module [FullCrawl]) and
    [src/daily-downloads-this-yr.py] (module [Daily]) are embedded over a
    common model of the Python values, exceptions and effects they use
    (module [Py]).

    Conventions.
    - A decoded JSON document is a [json] value.  Numbers with a fraction
      or an exponent are outside the model.  A str is the string of its
      UTF-8 bytes.
    - A Python dict is an association list in insertion order, without
      repeated keys; lookup takes the first binding.
    - Every call that touches the outside (HTTP GET, [time.sleep],
      [datetime.now], [logging]) appends an [event] to the trace the
      computation threads through.  Durations are in milliseconds.
    - An exception is an [Exc] outcome; state changes made before it are
      kept, as in Python.  [KeyboardInterrupt] is not modelled.
    - [while True] loops take a fuel argument; [Diverged] is the outcome of
      a run that used it up. *)

From Stdlib Require Import ZArith List String Ascii Bool Lia.
From Stdlib Require Import DecimalString.
Import ListNotations.
#[local] Set Warnings "-register-all".
Open Scope string_scope.
Open Scope list_scope.
Open Scope Z_scope.

(* ================================================================== *)
(** ** Python values, exceptions and effects *)
(* ================================================================== *)

Module Py.

Inductive json : Type :=
| JNull
| JBool (b : bool)
| JInt (z : Z)
| JStr (s : string)
| JList (items : list json)
| JDict (fields : list (string * json)).

Definition dict := list (string * json).

(** The exception classes the scripts can meet.  [RequestException]
    stands for the whole [requests.exceptions] hierarchy ([HTTPError],
    [ConnectionError], [Timeout], ...). *)
Inductive exn : Type :=
| RequestException
| KeyError
| TypeError
| AttributeError
| ValueError
| OtherError.

Definition is_request_exception (e : exn) : bool :=
  match e with RequestException => true | _ => false end.

(** [except Exception] catches every class of the model. *)
Definition is_exception (e : exn) : bool := true.

Inductive outcome (A : Type) : Type :=
| Val (a : A)
| Exc (e : exn)
| Diverged.
Arguments Val {A} a.
Arguments Exc {A} e.
Arguments Diverged {A}.

(** *** Dictionaries *)

Fixpoint dict_get {V : Type} (d : list (string * V)) (k : string) : option V :=
  match d with
  | [] => None
  | (k', v) :: d' => if String.eqb k' k then Some v else dict_get d' k
  end.

(** [d[k] = v]: overwrite in place, or append a new key. *)
Fixpoint dict_set {V : Type} (d : list (string * V)) (k : string) (v : V)
  : list (string * V) :=
  match d with
  | [] => [(k, v)]
  | (k', v') :: d' =>
      if String.eqb k' k then (k', v) :: d' else (k', v') :: dict_set d' k v
  end.

Definition dict_keys {V : Type} (d : list (string * V)) : list string :=
  map fst d.

(** *** Operators on decoded JSON *)

(** [bool(v)] *)
Definition truthy (v : json) : bool :=
  match v with
  | JNull => false
  | JBool b => b
  | JInt z => negb (z =? 0)
  | JStr s => negb (String.eqb s "")
  | JList l => match l with [] => false | _ => true end
  | JDict d => match d with [] => false | _ => true end
  end.

(** [v[k]] for a string key [k] *)
Definition subscript (v : json) (k : string) : outcome json :=
  match v with
  | JDict d =>
      match dict_get d k with
      | Some x => Val x
      | None => Exc KeyError
      end
  | _ => Exc TypeError
  end.

(** [v.get(k, default)] *)
Definition get_method (v : json) (k : string) (default : json) : outcome json :=
  match v with
  | JDict d =>
      match dict_get d k with
      | Some x => Val x
      | None => Val default
      end
  | _ => Exc AttributeError
  end.

Fixpoint is_substring (k s : string) : bool :=
  if String.prefix k s then true
  else match s with
       | EmptyString => false
       | String _ s' => is_substring k s'
       end.

Definition is_str (k : string) (v : json) : bool :=
  match v with JStr s => String.eqb s k | _ => false end.

(** [k in v] for a string [k] *)
Definition contains (k : string) (v : json) : outcome bool :=
  match v with
  | JDict d => Val (match dict_get d k with Some _ => true | None => false end)
  | JList l => Val (existsb (is_str k) l)
  | JStr s => Val (is_substring k s)
  | _ => Exc TypeError
  end.

(** A byte of the form 10xxxxxx continues the code point before it. *)
Definition is_continuation (c : ascii) : bool :=
  match c with
  | Ascii _ _ _ _ _ _ false true => true
  | _ => false
  end.

(** The code points of a str, each as the string of its bytes. *)
Fixpoint code_points (s : string) : list string :=
  match s with
  | EmptyString => []
  | String c s' =>
      let rest := code_points s' in
      match s', rest with
      | String c' _, first :: rest' =>
          if is_continuation c' then String c first :: rest'
          else String c EmptyString :: rest
      | _, _ => String c EmptyString :: rest
      end
  end.

(** The characters of a str, as iterating it gives them. *)
Definition chars (s : string) : list json := map JStr (code_points s).

(** The items [list.extend(v)] appends: iterating a list gives its
    elements, a dict its keys, a str its characters. *)
Definition iter_items (v : json) : outcome (list json) :=
  match v with
  | JList l => Val l
  | JDict d => Val (map JStr (dict_keys d))
  | JStr s => Val (chars s)
  | _ => Exc TypeError
  end.

(** *** Rendering *)

(** [str(z)] for an int *)
Definition str_int (z : Z) : string := NilZero.string_of_int (Z.to_int z).

(** [str(v)], as an f-string field renders it.  On a list or a dict it is
    CPython's [repr], which is left as the parameter [repr]. *)
Definition str (repr : json -> string) (v : json) : string :=
  match v with
  | JNull => "None"
  | JBool true => "True"
  | JBool false => "False"
  | JInt z => str_int z
  | JStr s => s
  | _ => repr v
  end.

(** [s.split(c)] *)
Fixpoint split (c : ascii) (s : string) : list string :=
  match s with
  | EmptyString => [EmptyString]
  | String a s' =>
      if Ascii.eqb a c then EmptyString :: split c s'
      else match split c s' with
           | [] => [String a EmptyString]
           | h :: t => String a h :: t
           end
  end.

Fixpoint group3 (rev_digits : list ascii) : list ascii :=
  match rev_digits with
  | a :: b :: c :: ((_ :: _) as rest) => a :: b :: c :: ","%char :: group3 rest
  | l => l
  end.

(** [format(z, ',')] for an int: digits in groups of three *)
Definition comma_int (z : Z) : string :=
  let digits := list_ascii_of_string (str_int (Z.abs z)) in
  let body := string_of_list_ascii (rev (group3 (rev digits))) in
  if z <? 0 then String "-"%char body else body.

(** [format(v, ',')], the [{v:,}] field of an f-string: defined on
    numbers only ([bool] is a subclass of [int]). *)
Definition format_comma (v : json) : outcome string :=
  match v with
  | JInt z => Val (comma_int z)
  | JBool b => Val (if b then "1" else "0")
  | JStr _ => Exc ValueError
  | _ => Exc TypeError
  end.

(** *** The outside world and the trace *)

Inductive response : Type :=
| Raises (e : exn)      (* [get], [raise_for_status] or [json] raised [e] *)
| Body (data : json).   (* status 2xx, body decoded to [data] *)

Record world : Type := {
  http_get : string -> response;   (* by URL *)
  clock : nat -> string            (* ISO time, by position in the trace *)
}.

Inductive level : Type := INFO | WARNING | ERROR.

Inductive event : Type :=
| EvGet (url : string)
| EvSleep (ms : Z)
| EvNow
| EvLog (lvl : level) (text : string) (cause : option exn).

Definition trace := list event.

(** *** The monad: an outcome and the extended trace *)

Definition M (A : Type) : Type := trace -> outcome A * trace.

Definition ret {A} (a : A) : M A := fun t => (Val a, t).

Definition bind {A B} (m : M A) (f : A -> M B) : M B :=
  fun t =>
    match m t with
    | (Val a, t') => f a t'
    | (Exc e, t') => (Exc e, t')
    | (Diverged, t') => (Diverged, t')
    end.

Definition lift {A} (o : outcome A) : M A := fun t => (o, t).

Definition raise {A} (e : exn) : M A := lift (Exc e).

Definition emit (ev : event) : M unit := fun t => (Val tt, t ++ [ev]).

(** [try: body / except C1 as e: h1 e / except C2 as e: h2 e ...]: the
    first clause whose class matches handles the exception; what a
    handler raises is not handled by the clauses after it. *)
Definition clause (A : Type) : Type := ((exn -> bool) * (exn -> M A))%type.

Fixpoint dispatch {A} (clauses : list (clause A)) (e : exn) : M A :=
  match clauses with
  | [] => raise e
  | (classes, handler) :: rest =>
      if classes e then handler e else dispatch rest e
  end.

Definition try_except {A} (body : M A) (clauses : list (clause A)) : M A :=
  fun t =>
    match body t with
    | (Exc e, t') => dispatch clauses e t'
    | r => r
    end.

Definition sleep (ms : Z) : M unit := emit (EvSleep ms).

Definition log (lvl : level) (text : string) (cause : option exn) : M unit :=
  emit (EvLog lvl text cause).

(** [datetime.now().isoformat()] *)
Definition now_iso (w : world) : M string :=
  fun t => (Val (clock w (List.length t)), t ++ [EvNow]).

(** [requests.get(url)], [raise_for_status()], [json()] *)
Definition fetch_json (w : world) (url : string) : M json :=
  bind (emit (EvGet url)) (fun _ =>
    match http_get w url with
    | Raises e => raise e
    | Body data => ret data
    end).

Definition base_url : string := "https://registry.terraform.io/v2".

End Py.

Import Py.

Declare Scope py_scope.
Delimit Scope py_scope with py.
Notation "x <- m ;; k" := (bind m (fun x => k))
  (at level 61, m at next level, right associativity) : py_scope.
Notation "m ;; k" := (bind m (fun _ => k))
  (at level 61, right associativity) : py_scope.
Open Scope py_scope.

(* ================================================================== *)
(** ** The full crawl: [All-providers-download-since-beginning.py] *)
(* ================================================================== *)

Module FullCrawl.

(** The list endpoint, [page[size]] fixed at 50. *)
Definition list_url (page : Z) : string :=
  (base_url ++ "/providers?page[number]=" ++ str_int page ++ "&page[size]=50")%string.

(** One pass through the [try] block of [get_all_providers]: [None] is
    [break], [Some (page', providers')] the state the next pass starts
    from. *)
Definition fetch_page (w : world) (page : Z) (providers : list json)
  : M (option (Z * list json)) :=
  data <- fetch_json w (list_url page) ;;
  d <- lift (get_method data "data" JNull) ;;
  if negb (truthy d) then ret None
  else
    page_data <- lift (subscript data "data") ;;
    items <- lift (iter_items page_data) ;;
    sleep 500 ;;
    ret (Some (page + 1, providers ++ items)).

Fixpoint get_all_providers_loop (w : world) (fuel : nat) (page : Z)
  (providers : list json) : M (list json) :=
  match fuel with
  | O => lift Diverged
  | S fuel' =>
      next <- try_except (fetch_page w page providers)
                [(is_request_exception,
                  fun e =>
                    log ERROR ("Error fetching providers page " ++ str_int page ++ ": ")%string
                        (Some e) ;;
                    ret None)] ;;
      match next with
      | None => ret providers
      | Some (page', providers') => get_all_providers_loop w fuel' page' providers'
      end
  end.

Definition get_all_providers (w : world) (fuel : nat) : M (list json) :=
  get_all_providers_loop w fuel 1 [].


(** *** [get_provider_downloads] and [generate_report] *)

Section ProviderRecords.

Variable repr : json -> string.

(** The record is the dict literal of the source, key by key. *)
Definition get_provider_downloads (provider : json) : M (option dict) :=
  try_except
    (provider_id <- lift (subscript provider "id") ;;
     attributes <- lift (subscript provider "attributes") ;;
     namespace <- lift (get_method attributes "namespace" JNull) ;;
     name <- lift (get_method attributes "name" JNull) ;;
     fn_namespace <- lift (get_method attributes "namespace" JNull) ;;
     fn_name <- lift (get_method attributes "name" JNull) ;;
     downloads <- lift (get_method attributes "downloads" (JInt 0)) ;;
     version <- lift (get_method attributes "version" JNull) ;;
     published_at <- lift (get_method attributes "published-at" JNull) ;;
     tier <- lift (get_method attributes "tier" JNull) ;;
     source <- lift (get_method attributes "source" JNull) ;;
     ret (Some [("id", provider_id);
                ("namespace", namespace);
                ("name", name);
                ("full_name", JStr (str repr fn_namespace ++ "/" ++ str repr fn_name)%string);
                ("downloads", downloads);
                ("version", version);
                ("published_at", published_at);
                ("tier", tier);
                ("source", source)]))
    [(is_exception,
      fun e =>
        provider_id <- lift (get_method provider "id" JNull) ;;
        log ERROR ("Error processing provider " ++ str repr provider_id ++ ": ")%string
            (Some e) ;;
        ret None)].

(** The [for provider in providers] loop of [generate_report] (the
    progress bar is not modelled). *)
Fixpoint process_providers (providers : list json) (report_data : list dict)
  : M (list dict) :=
  match providers with
  | [] => ret report_data
  | provider :: rest =>
      provider_data <- get_provider_downloads provider ;;
      match provider_data with
      | Some row =>
          (* [if provider_data:] *)
          if truthy (JDict row) then process_providers rest (report_data ++ [row])
          else process_providers rest report_data
      | None => process_providers rest report_data
      end
  end.

Definition generate_report (w : world) (fuel : nat) : M (list dict) :=
  log INFO "Fetching all providers from Terraform Registry..." None ;;
  providers <- get_all_providers w fuel ;;
  log INFO ("Found " ++ str_int (Z.of_nat (List.length providers)) ++ " providers")%string
      None ;;
  process_providers providers [].

End ProviderRecords.

End FullCrawl.

(* ================================================================== *)
(** ** The daily report: [daily-downloads-this-yr.py] *)
(* ================================================================== *)

Module Daily.

(** [self.providers], in insertion order. *)
Definition providers : list (string * string) :=
  [("aws", "hashicorp/aws");
   ("azure", "hashicorp/azurerm");
   ("gcp", "hashicorp/google");
   ("datadog", "datadog/datadog");
   ("splunk", "splunk/splunk");
   ("databricks", "databricks/databricks");
   ("elastic", "elastic/ec")].

Definition detail_url (namespace name : string) : string :=
  (base_url ++ "/providers/" ++ namespace ++ "/" ++ name)%string.

Definition get_provider_downloads (w : world) (provider_path : string)
  : M (option dict) :=
  try_except
    (match split "/"%char provider_path with
     | [namespace; name] =>
         data <- fetch_json w (detail_url namespace name) ;;
         has_data <- lift (contains "data" data) ;;
         has_attributes <-
           (if has_data then
              d <- lift (subscript data "data") ;;
              lift (contains "attributes" d)
            else ret false) ;;
         if has_attributes then
           d <- lift (subscript data "data") ;;
           attributes <- lift (subscript d "attributes") ;;
           downloads <- lift (get_method attributes "downloads" (JInt 0)) ;;
           ret (Some [("downloads", downloads)])
         else ret None
     | _ => raise ValueError   (* unpacking into two names *)
     end)
    [(is_request_exception,
      fun e =>
        log ERROR ("Error fetching data for " ++ provider_path ++ ": ")%string (Some e) ;;
        ret None);
     (is_exception,
      fun e =>
        log ERROR ("Unexpected error for " ++ provider_path ++ ": ")%string (Some e) ;;
        ret None)].

Definition is_key_or_type_error (e : exn) : bool :=
  match e with KeyError | TypeError => true | _ => false end.

Definition calculate_monthly_downloads (data : dict) : M json :=
  if negb (truthy (JDict data)) then ret (JInt 0)
  else
    try_except (lift (get_method (JDict data) "downloads" (JInt 0)))
      [(is_key_or_type_error,
        fun e => log ERROR "Error parsing download data: " (Some e) ;; ret (JInt 0))].

Definition report := list (string * dict).

(** One pass through the body of the [for] loop of [generate_report]. *)
Definition report_provider (w : world) (rep : report)
  (provider_name provider_path : string) : M report :=
  log INFO ("Fetching statistics for " ++ provider_name ++ "...")%string None ;;
  data <- get_provider_downloads w provider_path ;;
  rep' <-
    match data with
    | Some ((_ :: _) as d) =>
        downloads <- calculate_monthly_downloads d ;;
        timestamp <- now_iso w ;;
        let rep' :=
          dict_set rep provider_name
            [("provider", JStr provider_path);
             ("total_downloads", downloads);
             ("timestamp", JStr timestamp)] in
        shown <- lift (format_comma downloads) ;;
        log INFO ("Successfully fetched " ++ provider_name ++ " downloads: " ++ shown)%string
            None ;;
        ret rep'
    | _ =>
        timestamp <- now_iso w ;;
        let rep' :=
          dict_set rep provider_name
            [("provider", JStr provider_path);
             ("total_downloads", JInt 0);
             ("timestamp", JStr timestamp);
             ("error", JStr "Failed to fetch data")] in
        log WARNING ("Failed to fetch data for " ++ provider_name)%string None ;;
        ret rep'
    end ;;
  (* Add delay to avoid rate limiting *)
  sleep 1000 ;;
  ret rep'.

Fixpoint report_loop (w : world) (entries : list (string * string)) (rep : report)
  : M report :=
  match entries with
  | [] => ret rep
  | (provider_name, provider_path) :: rest =>
      rep' <- report_provider w rep provider_name provider_path ;;
      report_loop w rest rep'
  end.

Definition generate_report (w : world) : M report :=
  report_loop w providers [].

End Daily.

(* ================================================================== *)
(** ** Vocabulary of the statements *)
(* ================================================================== *)

Import FullCrawl.

(** The list endpoint answers the request for [page] with a JSON object
    whose [data] member is the array [items]. *)
Definition serves (w : world) (page : Z) (items : list json) : Prop :=
  exists d, http_get w (list_url page) = Body (JDict d)
            /\ dict_get d "data" = Some (JList items).

(** From [page] on, the endpoint serves the non-empty arrays [pages], one
    per page. *)
Fixpoint serves_from (w : world) (page : Z) (pages : list (list json)) : Prop :=
  match pages with
  | [] => True
  | items :: rest =>
      items <> [] /\ serves w page items /\ serves_from w (page + 1) rest
  end.

(** The request for [page] fails with a transport or HTTP-status error. *)
Definition fails (w : world) (page : Z) : Prop :=
  http_get w (list_url page) = Raises RequestException.

(** [n] pages fetched in full from [page] on: a request, then the delay. *)
Fixpoint paced (page : Z) (n : nat) : trace :=
  match n with
  | O => []
  | S n' => EvGet (list_url page) :: EvSleep 500 :: paced (page + 1) n'
  end.

Definition page_error_log (page : Z) : event :=
  EvLog ERROR ("Error fetching providers page " ++ str_int page ++ ": ")%string
        (Some RequestException).

(** The delays and the requests of a trace, in order. *)
Definition delays (t : trace) : list Z :=
  flat_map (fun ev => match ev with EvSleep ms => [ms] | _ => [] end) t.

Definition requests (t : trace) : list string :=
  flat_map (fun ev => match ev with EvGet url => [url] | _ => [] end) t.

(** A mock registry: page [k] (from 1) is the [k]-th response of
    [script]; any other URL gets [otherwise]. *)
Fixpoint lookup_page (script : list response) (page : Z) (url : string)
  : option response :=
  match script with
  | [] => None
  | r :: rest =>
      if String.eqb url (list_url page) then Some r
      else lookup_page rest (page + 1) url
  end.

Definition mock (script : list response) (otherwise : response) : world :=
  {| http_get := fun url =>
       match lookup_page script 1 url with
       | Some r => r
       | None => otherwise
       end;
     clock := fun _ => "2024-01-01T00:00:00" |}.

Definition page_of (items : list json) : response :=
  Body (JDict [("data", JList items)]).

Definition raw_item (n : nat) : json :=
  JDict [("id", JStr (str_int (Z.of_nat n)));
         ("attributes", JDict [("namespace", JStr "hashicorp");
                               ("name", JStr "aws");
                               ("downloads", JInt (Z.of_nat n))])].

Definition fifty_items : list json := map raw_item (seq 1 50).

(** The page numbers [page], [page + 1], ... ([n] of them). *)
Fixpoint page_range (page : Z) (n : nat) : list Z :=
  match n with
  | O => []
  | S n' => page :: page_range (page + 1) n'
  end.

(** Two pages of two and one items, then the empty page. *)
Definition three_page_registry : world :=
  mock [page_of [raw_item 1; raw_item 2]; page_of [raw_item 3]; page_of []]
       (Raises OtherError).

(** Two pages, then a request that fails. *)
Definition failing_registry : world :=
  mock [page_of [raw_item 1; raw_item 2]; page_of [raw_item 3];
        Raises RequestException; page_of [raw_item 4]]
       (Raises OtherError).

(** Page 1 with 50 items, page 2 with none. *)
Definition fifty_then_empty : world :=
  mock [page_of fifty_items; page_of []] (Raises OtherError).

(** [v] is a JSON object with a member [k]. *)
Definition has_field (v : json) (k : string) : Prop :=
  exists d x, v = JDict d /\ dict_get d k = Some x.

(** [a.get(k, default)] on a dict. *)
Definition attr (a : dict) (k : string) (default : json) : json :=
  match dict_get a k with
  | Some x => x
  | None => default
  end.

(** The record built from an item's [id] and its [attributes] object. *)
Definition row_of (repr : json -> string) (provider_id : json) (a : dict) : dict :=
  [("id", provider_id);
   ("namespace", attr a "namespace" JNull);
   ("name", attr a "name" JNull);
   ("full_name",
    JStr (str repr (attr a "namespace" JNull) ++ "/" ++ str repr (attr a "name" JNull))%string);
   ("downloads", attr a "downloads" (JInt 0));
   ("version", attr a "version" JNull);
   ("published_at", attr a "published-at" JNull);
   ("tier", attr a "tier" JNull);
   ("source", attr a "source" JNull)].

Definition process_error_log (repr : json -> string) (provider_id : json) (e : exn)
  : event :=
  EvLog ERROR ("Error processing provider " ++ str repr provider_id ++ ": ")%string
        (Some e).

(** A stand-in for CPython's [repr] in closed examples, none of which
    renders a list or a dict. *)
Definition repr_unused (v : json) : string := "".

Definition item_with (attributes : json) : json :=
  JDict [("id", JStr "hashicorp/aws"); ("attributes", attributes)].

(** The answer of the detail endpoint to the request
    [get_provider_downloads provider_path] makes; [None] when the path
    does not split into a namespace and a name, so that no request is
    made. *)
Definition detail_response (w : world) (provider_path : string) : option response :=
  match split "/"%char provider_path with
  | [namespace; name] => Some (http_get w (Daily.detail_url namespace name))
  | _ => None
  end.

(** [data.attributes] of a decoded body: the [attributes] member of the
    object that is the [data] member of the body, when the body has that
    shape. *)
Definition attributes_of (body : json) : option json :=
  match body with
  | JDict d =>
      match dict_get d "data" with
      | Some (JDict inner) => dict_get inner "attributes"
      | _ => None
      end
  | _ => None
  end.

(** What the daily [get_provider_downloads] returns, read off the
    registry's answer. *)
Definition fetched (w : world) (provider_path : string) : option dict :=
  match detail_response w provider_path with
  | Some (Body body) =>
      match attributes_of body with
      | Some (JDict a) => Some [("downloads", attr a "downloads" (JInt 0))]
      | _ => None
      end
  | _ => None
  end.

Definition success_snapshot (provider_path : string) (downloads : json)
  (timestamp : string) : dict :=
  [("provider", JStr provider_path);
   ("total_downloads", downloads);
   ("timestamp", JStr timestamp)].

Definition failure_snapshot (provider_path timestamp : string) : dict :=
  [("provider", JStr provider_path);
   ("total_downloads", JInt 0);
   ("timestamp", JStr timestamp);
   ("error", JStr "Failed to fetch data")].

Definition snapshot_of (w : world) (provider_path timestamp : string) : dict :=
  match fetched w provider_path with
  | Some d => success_snapshot provider_path (attr d "downloads" (JInt 0)) timestamp
  | None => failure_snapshot provider_path timestamp
  end.

(** The [{downloads:,}] field of the success line can be rendered. *)
Definition renderable (v : json) : bool :=
  match format_comma v with
  | Val _ => true
  | _ => false
  end.

Definition renders (w : world) (provider_path : string) : bool :=
  match fetched w provider_path with
  | Some d => renderable (attr d "downloads" (JInt 0))
  | None => true
  end.

Definition detail_body (attributes : json) : response :=
  Body (JDict [("data", JDict [("attributes", attributes)])]).

(** Every detail request is answered with [attributes]. *)
Definition uniform_registry (attributes : json) : world :=
  {| http_get := fun _ => detail_body attributes;
     clock := fun _ => "2024-01-01T00:00:00" |}.

(** Only [hashicorp/aws] is answered, with 12345 downloads; every other
    request fails. *)
Definition aws_only_registry : world :=
  {| http_get := fun url =>
       if String.eqb url (Daily.detail_url "hashicorp" "aws")
       then detail_body (JDict [("downloads", JInt 12345)])
       else Raises RequestException;
     clock := fun _ => "2024-01-01T00:00:00" |}.

(* ================================================================== *)
(** ** The entry points of the two scripts *)
(* ================================================================== *)

Module FullCrawlRun.

Section Main.

Variable repr : json -> string.

(** [save_report] of the full crawl works through pandas and the file
    system; [main] is given for any behaviour of it. *)
Variable save_report : list dict -> M unit.

(** [main].  The [except KeyboardInterrupt] clause has nothing to catch
    in this model. *)
Definition main (w : world) (fuel : nat) : M unit :=
  log INFO "Starting Terraform Registry Full Provider Statistics" None ;;
  try_except
    (report_data <- FullCrawl.generate_report repr w fuel ;;
     save_report report_data)
    [(is_exception,
      fun e => log ERROR "Unexpected error: " (Some e))].

End Main.

End FullCrawlRun.

Module DailyRun.

(** The file system as the daily [save_report] meets it: the
    [strftime("%Y%m%d_%H%M%S")] rendering of the clock, by position in
    the trace, and whether opening or writing the named file raises
    [IOError]. *)
Record disk : Type := {
  stamp : nat -> string;
  write_fails : string -> bool
}.

Definition report_filename (timestamp : string) : string :=
  ("terraform_downloads_" ++ timestamp ++ ".json")%string.

(** [save_report]: the written file is witnessed by its [INFO] line.
    [IOError] is not one of the classes of [exn]; in the [ERROR] line
    [OtherError] stands for it. *)
Definition save_report (dk : disk) (rep : Daily.report) : M unit :=
  timestamp <- (fun t => (Val (stamp dk (List.length t)), t ++ [EvNow])) ;;
  let filename := report_filename timestamp in
  if write_fails dk filename then
    log ERROR "Error saving report: " (Some OtherError)
  else
    log INFO ("Report saved to " ++ filename)%string None.

(** The [for provider, data in report.items()] loop of
    [run_daily_report]. *)
Fixpoint log_totals (entries : Daily.report) : M unit :=
  match entries with
  | [] => ret tt
  | (provider, data) :: rest =>
      total <- lift (subscript (JDict data) "total_downloads") ;;
      shown <- lift (format_comma total) ;;
      log INFO (provider ++ ": " ++ shown ++ " downloads")%string None ;;
      log_totals rest
  end.

Definition run_daily_report (w : world) (dk : disk) : M unit :=
  rep <- Daily.generate_report w ;;
  log INFO (String "010"%char "Provider Download Statistics:") None ;;
  log_totals rep ;;
  save_report dk rep.

Section Main.

(** The registration of the daily job and the polling loop of [main]
    depend on the [schedule] library and on wall-clock time; [main] is
    given for any behaviour of them. *)
Variable scheduler : M unit.

Definition main (w : world) (dk : disk) : M unit :=
  log INFO "Starting Terraform Registry Statistics Monitor" None ;;
  try_except
    (run_daily_report w dk ;; scheduler)
    [(is_exception,
      fun e => log ERROR "Unexpected error: " (Some e))].

End Main.

End DailyRun.

(** *** Further vocabulary *)

Definition is_object (v : json) : bool :=
  match v with JDict _ => true | _ => false end.

(** The record of a raw item, when it has one. *)
Definition record_of (repr : json -> string) (item : json) : option dict :=
  match item with
  | JDict d =>
      match dict_get d "id", dict_get d "attributes" with
      | Some provider_id, Some (JDict a) => Some (row_of repr provider_id a)
      | _, _ => None
      end
  | _ => None
  end.

Definition records_of (repr : json -> string) (items : list json) : list dict :=
  flat_map (fun item => match record_of repr item with
                        | Some row => [row]
                        | None => []
                        end) items.

(** The columns of a record, in the order of the dict literal. *)
Definition columns : list string :=
  ["id"; "namespace"; "name"; "full_name"; "downloads"; "version";
   "published_at"; "tier"; "source"].

(** A [data] member that is true in a condition and cannot be iterated. *)
Definition truthy_scalar (v : json) : Prop :=
  v = JBool true \/ exists z, v = JInt z /\ z <> 0.

(** Every list request is answered with one more item. *)
Definition endless_registry : world :=
  {| http_get := fun _ => page_of [raw_item 1];
     clock := fun _ => "2024-01-01T00:00:00" |}.

(** Number of slashes of a path. *)
Fixpoint slashes (s : string) : nat :=
  match s with
  | EmptyString => O
  | String a s' => if Ascii.eqb a "/"%char then S (slashes s') else slashes s'
  end.

(** What a run of [get_provider_downloads] requests. *)
Definition detail_request (provider_path : string) : list string :=
  match split "/"%char provider_path with
  | [namespace; name] => [Daily.detail_url namespace name]
  | _ => []
  end.

Definition is_number (v : json) : Prop :=
  (exists z, v = JInt z) \/ (exists b, v = JBool b).

(** Every detail request fails. *)
Definition unreachable_registry : world :=
  {| http_get := fun _ => Raises RequestException;
     clock := fun _ => "2024-01-01T00:00:00" |}.

Definition plain_disk : DailyRun.disk :=
  {| DailyRun.stamp := fun _ => "20240101_000000";
     DailyRun.write_fails := fun _ => false |}.

(** Every entry of the report holds a [total_downloads] that the
    thousands format can render. *)
Definition totals_render (rep : Daily.report) : Prop :=
  Forall (fun entry : string * dict =>
            exists v, dict_get (snd entry) "total_downloads" = Some v
                      /\ renderable v = true) rep.

(** The values the [{downloads:,}] field cannot render: [format] raises
    [TypeError] on null, an array and an object, [ValueError] on a
    string. *)
Definition unformattable (v : json) : Prop :=
  v = JNull \/ (exists s, v = JStr s) \/ (exists l, v = JList l)
  \/ (exists d, v = JDict d).

(** Closes a case of the analysis of a response body: the run is
    computed and the events it added are read off. *)
Ltac shape_done :=
  eexists; cbn; unfold bind, log, emit, ret; cbn;
  rewrite <- ?app_assoc; reflexivity.

(** The same, when the requests and the delays of the added events are
    to be read off as well. *)
Ltac events_done :=
  eexists; split;
  [cbn; unfold bind, log, emit, ret; cbn; rewrite <- ?app_assoc; reflexivity
  |split; reflexivity].

(* ================================================================== *)
(** ** Pagination: [get_all_providers] *)
(* ================================================================== *)

Lemma paced_app (page : Z) (n m : nat) :
  paced page (n + m) = paced page n ++ paced (page + Z.of_nat n) m.
Proof.
  revert page; induction n as [|n IH]; intros page.
  - simpl. now rewrite Z.add_0_r.
  - cbn [Nat.add paced]. rewrite IH. cbn [app].
    do 3 f_equal. f_equal. lia.
Qed.

(** A page with a non-empty [data] array: its items are appended, the
    page number moves on, and the delay is taken. *)
Lemma loop_next_page (w : world) (fuel : nat) (page : Z) (items acc : list json)
  (t : trace) :
  items <> [] -> serves w page items ->
  get_all_providers_loop w (S fuel) page acc t
  = get_all_providers_loop w fuel (page + 1) (acc ++ items)
      (t ++ [EvGet (list_url page); EvSleep 500]).
Proof.
  intros Hne (d & Hget & Hd).
  cbn [get_all_providers_loop].
  unfold bind at 1, try_except, fetch_page, fetch_json, bind, emit, lift, sleep, emit, ret.
  rewrite Hget. cbn [get_method subscript]. rewrite Hd. cbn [truthy iter_items].
  destruct items as [|x items]; [congruence|]. cbn [negb].
  now rewrite <- app_assoc.
Qed.

(** A page whose [data] is falsy ends the loop without a delay. *)
Lemma loop_last_page (w : world) (fuel : nat) (page : Z) (acc : list json)
  (t : trace) (data d : json) :
  http_get w (list_url page) = Body data ->
  get_method data "data" JNull = Val d -> truthy d = false ->
  get_all_providers_loop w (S fuel) page acc t
  = (Val acc, t ++ [EvGet (list_url page)]).
Proof.
  intros Hget Hd Hfalsy.
  cbn [get_all_providers_loop].
  unfold bind at 1, try_except, fetch_page, fetch_json, bind, emit, lift, ret.
  rewrite Hget, Hd, Hfalsy. reflexivity.
Qed.

(** A failed request ends the loop: the error is logged and what was
    accumulated is returned. *)
Lemma loop_failed_page (w : world) (fuel : nat) (page : Z) (acc : list json)
  (t : trace) :
  fails w page ->
  get_all_providers_loop w (S fuel) page acc t
  = (Val acc, t ++ [EvGet (list_url page); page_error_log page]).
Proof.
  intros Hget. unfold fails in Hget.
  cbn [get_all_providers_loop].
  unfold bind at 1, try_except, fetch_page, fetch_json, bind, emit, lift, raise, lift, ret.
  rewrite Hget. cbn [dispatch is_request_exception].
  unfold bind, log, emit, ret, page_error_log.
  now rewrite <- app_assoc.
Qed.

Lemma loop_pages (w : world) (pages : list (list json)) :
  forall (fuel : nat) (page : Z) (acc : list json) (t : trace),
    serves_from w page pages ->
    get_all_providers_loop w (List.length pages + fuel) page acc t
    = get_all_providers_loop w fuel (page + Z.of_nat (List.length pages))
        (acc ++ List.concat pages) (t ++ paced page (List.length pages)).
Proof.
  induction pages as [|items rest IH]; intros fuel page acc t Hs.
  - cbn. now rewrite Z.add_0_r, !app_nil_r.
  - destruct Hs as (Hne & Hitems & Hrest).
    cbn [List.length Nat.add]. rewrite (loop_next_page w _ page items acc t Hne Hitems).
    rewrite IH by exact Hrest.
    cbn [List.concat paced]. rewrite <- !app_assoc. cbn [app].
    replace (page + 1 + Z.of_nat (List.length rest))
      with (page + Z.of_nat (S (List.length rest))) by lia.
    reflexivity.
Qed.

Lemma loop_until_empty (w : world) (pages : list (list json)) (fuel : nat)
  (page : Z) (acc : list json) (t : trace) :
  serves_from w page pages ->
  serves w (page + Z.of_nat (List.length pages)) [] ->
  (List.length pages < fuel)%nat ->
  get_all_providers_loop w fuel page acc t
  = (Val (acc ++ List.concat pages),
     t ++ paced page (List.length pages)
       ++ [EvGet (list_url (page + Z.of_nat (List.length pages)))]).
Proof.
  intros Hs (d & Hget & Hd) Hfuel.
  replace fuel with (List.length pages + S (fuel - S (List.length pages)))%nat by lia.
  rewrite loop_pages by exact Hs.
  rewrite (loop_last_page w _ _ _ _ (JDict d) (JList [])); trivial.
  - now rewrite <- app_assoc.
  - cbn [get_method]. now rewrite Hd.
Qed.

Lemma loop_until_failure (w : world) (pages : list (list json)) (fuel : nat)
  (page : Z) (acc : list json) (t : trace) :
  serves_from w page pages ->
  fails w (page + Z.of_nat (List.length pages)) ->
  (List.length pages < fuel)%nat ->
  get_all_providers_loop w fuel page acc t
  = (Val (acc ++ List.concat pages),
     t ++ paced page (List.length pages)
       ++ [EvGet (list_url (page + Z.of_nat (List.length pages)));
           page_error_log (page + Z.of_nat (List.length pages))]).
Proof.
  intros Hs Hfail Hfuel.
  replace fuel with (List.length pages + S (fuel - S (List.length pages)))%nat by lia.
  rewrite loop_pages by exact Hs.
  rewrite loop_failed_page by exact Hfail.
  now rewrite <- app_assoc.
Qed.

(** One pass of the loop, whatever the registry answers: it goes on to
    the next page after a request and the delay, or it stops after the
    request, with or without the error line. *)
Lemma loop_pass (w : world) (fuel : nat) (page : Z) (acc : list json) (t : trace) :
  (exists items,
      get_all_providers_loop w (S fuel) page acc t
      = get_all_providers_loop w fuel (page + 1) (acc ++ items)
          (t ++ [EvGet (list_url page); EvSleep 500]))
  \/ (exists r,
         get_all_providers_loop w (S fuel) page acc t
         = (r, t ++ [EvGet (list_url page)]))
  \/ get_all_providers_loop w (S fuel) page acc t
     = (Val acc, t ++ [EvGet (list_url page); page_error_log page]).
Proof.
  destruct (http_get w (list_url page)) as [e|data] eqn:Hget.
  - destruct e;
      try (right; left; eexists; cbn [get_all_providers_loop];
           unfold bind at 1, try_except, fetch_page, fetch_json, bind, emit, raise, lift;
           rewrite Hget; reflexivity).
    right; right. now apply loop_failed_page.
  - cbn [get_all_providers_loop].
    unfold bind at 1, try_except, fetch_page, fetch_json, bind, emit, lift, sleep, emit, ret.
    rewrite Hget.
    destruct data as [| | | | |fields];
      try (right; left; eexists; reflexivity).
    cbn [get_method subscript].
    destruct (dict_get fields "data") as [x|];
      [|right; left; eexists; reflexivity].
    destruct (truthy x) eqn:Ht; cbn [negb];
      [|right; left; eexists; reflexivity].
    destruct x as [|b|z|s|items|d]; cbn [iter_items];
      try (right; left; eexists; reflexivity);
      left; eexists; now rewrite <- app_assoc.
Qed.

(** What the trace of a run looks like, for any registry and any fuel. *)
Lemma loop_trace (w : world) (fuel : nat) :
  forall (page : Z) (acc : list json) (t : trace),
  exists (k : nat) (last : trace),
    snd (get_all_providers_loop w fuel page acc t) = t ++ paced page k ++ last
    /\ (last = []
        \/ last = [EvGet (list_url (page + Z.of_nat k))]
        \/ last = [EvGet (list_url (page + Z.of_nat k));
                   page_error_log (page + Z.of_nat k)]).
Proof.
  induction fuel as [|fuel IH]; intros page acc t.
  - exists 0%nat, []. cbn. rewrite app_nil_r. auto.
  - destruct (loop_pass w fuel page acc t) as [(items & E)|[(r & E)|E]].
    + rewrite E. destruct (IH (page + 1) (acc ++ items)
                             (t ++ [EvGet (list_url page); EvSleep 500]))
        as (k & last & Ht & Hlast).
      exists (S k), last. split.
      * rewrite Ht. cbn [paced]. now rewrite <- app_assoc.
      * replace (page + Z.of_nat (S k)) with (page + 1 + Z.of_nat k) by lia.
        exact Hlast.
    + exists 0%nat, [EvGet (list_url page)]. rewrite E, Z.add_0_r. cbn. auto.
    + exists 0%nat, [EvGet (list_url page); page_error_log page].
      rewrite E, Z.add_0_r. cbn. auto.
Qed.

Lemma delays_app (t u : trace) : delays (t ++ u) = delays t ++ delays u.
Proof. unfold delays. now rewrite flat_map_app. Qed.

Lemma requests_app (t u : trace) : requests (t ++ u) = requests t ++ requests u.
Proof. unfold requests. now rewrite flat_map_app. Qed.

Lemma delays_paced (page : Z) (n : nat) : delays (paced page n) = repeat 500 n.
Proof.
  revert page; induction n as [|n IH]; intros page; [reflexivity|].
  cbn [paced repeat]. change (delays (?a :: ?b :: ?l)) with (delays [a; b] ++ delays l).
  now rewrite IH.
Qed.

Lemma requests_paced (page : Z) (n : nat) :
  requests (paced page n) = map list_url (page_range page n).
Proof.
  revert page; induction n as [|n IH]; intros page; [reflexivity|].
  cbn [paced page_range map].
  change (requests (?a :: ?b :: ?l)) with (requests [a; b] ++ requests l).
  now rewrite IH.
Qed.

Lemma page_range_snoc (page : Z) (n : nat) :
  page_range page (S n) = page_range page n ++ [page + Z.of_nat n].
Proof.
  revert page; induction n as [|n IH]; intros page.
  - cbn. now rewrite Z.add_0_r.
  - change (page_range page (S (S n))) with (page :: page_range (page + 1) (S n)).
    rewrite IH. cbn [page_range app]. do 3 f_equal. lia.
Qed.

(** C1. When pages 1..n of the list endpoint carry non-empty [data]
    arrays and page n+1 carries an empty one, [get_all_providers] returns
    with any fuel above n (it terminates, and needs n+1 passes), and what
    it returns is the concatenation of the items of pages 1..n in page
    order. *)
Theorem get_all_providers_returns_all_pages
  (w : world) (pages : list (list json)) (fuel : nat) (t : trace) :
  serves_from w 1 pages ->
  serves w (1 + Z.of_nat (List.length pages)) [] ->
  (List.length pages < fuel)%nat ->
  get_all_providers w fuel t
  = (Val (List.concat pages),
     t ++ paced 1 (List.length pages)
       ++ [EvGet (list_url (1 + Z.of_nat (List.length pages)))]).
Proof.
  intros Hs Hlast Hfuel. unfold get_all_providers.
  now rewrite (loop_until_empty w pages fuel 1 [] t Hs Hlast Hfuel).
Qed.

Lemma get_all_providers_returns_all_pages_witness :
  fst (get_all_providers three_page_registry 3 [])
  = Val [raw_item 1; raw_item 2; raw_item 3].
Proof.
  rewrite (get_all_providers_returns_all_pages three_page_registry
             [[raw_item 1; raw_item 2]; [raw_item 3]] 3 []).
  - reflexivity.
  - cbn [serves_from]. repeat split; try discriminate;
      eexists; split; reflexivity.
  - eexists; split; reflexivity.
  - cbn; lia.
Defined.

(** C4. A page request that fails with a [RequestException] ends the
    pagination at once, from any state of the loop: the accumulated items
    are returned unchanged and the only events are the failed request and
    its error line.  For a run from page 1 whose pages 1..n were fetched
    in full and whose page n+1 fails, the result is the items of pages
    1..n and the requests are those for pages 1..n+1 and no other. *)
Theorem get_all_providers_stops_on_failure (w : world) :
  (forall (fuel : nat) (page : Z) (acc : list json) (t : trace),
      fails w page ->
      get_all_providers_loop w (S fuel) page acc t
      = (Val acc, t ++ [EvGet (list_url page); page_error_log page]))
  /\ (forall (pages : list (list json)) (fuel : nat),
         serves_from w 1 pages ->
         fails w (1 + Z.of_nat (List.length pages)) ->
         (List.length pages < fuel)%nat ->
         fst (get_all_providers w fuel []) = Val (List.concat pages)
         /\ requests (snd (get_all_providers w fuel []))
            = map list_url (page_range 1 (S (List.length pages)))).
Proof.
  split.
  - intros fuel page acc t Hfail. now apply loop_failed_page.
  - intros pages fuel Hs Hfail Hfuel. unfold get_all_providers.
    rewrite (loop_until_failure w pages fuel 1 [] [] Hs Hfail Hfuel).
    cbn [fst snd app]. split; [reflexivity|].
    rewrite requests_app, requests_paced, page_range_snoc, map_app.
    reflexivity.
Qed.

Lemma get_all_providers_stops_on_failure_witness :
  fst (get_all_providers failing_registry 10 [])
  = Val [raw_item 1; raw_item 2; raw_item 3]
  /\ requests (snd (get_all_providers failing_registry 10 []))
     = [list_url 1; list_url 2; list_url 3].
Proof.
  apply (proj2 (get_all_providers_stops_on_failure failing_registry)
           [[raw_item 1; raw_item 2]; [raw_item 3]] 10%nat).
  - cbn [serves_from]. repeat split; try discriminate;
      eexists; split; reflexivity.
  - reflexivity.
  - cbn; lia.
Defined.

(** C9. In every run of [get_all_providers] the trace is a sequence of
    (request for page p, delay of 0.5 s) pairs for p = 1, 2, ..., k,
    followed by at most one more request, the one for page k+1, which no
    delay follows: any two consecutive page requests have exactly one
    0.5-second delay between them.  When page 1 carries 50 items and page
    2 none, 50 records are returned and exactly one delay has elapsed. *)
Theorem get_all_providers_pacing (w : world) (fuel : nat) :
  (exists (k : nat) (last : trace),
      snd (get_all_providers w fuel []) = paced 1 k ++ last
      /\ (last = []
          \/ last = [EvGet (list_url (1 + Z.of_nat k))]
          \/ last = [EvGet (list_url (1 + Z.of_nat k));
                     page_error_log (1 + Z.of_nat k)]))
  /\ (forall items : list json,
         List.length items = 50%nat ->
         serves w 1 items -> serves w 2 [] -> (2 <= fuel)%nat ->
         exists result t,
           get_all_providers w fuel [] = (Val result, t)
           /\ result = items
           /\ List.length result = 50%nat
           /\ delays t = [500]
           /\ requests t = [list_url 1; list_url 2]).
Proof.
  split.
  - destruct (loop_trace w fuel 1 [] []) as (k & last & Ht & Hlast).
    exists k, last. split; [exact Ht | exact Hlast].
  - intros items Hlen H1 H2 Hfuel. unfold get_all_providers.
    assert (Hs : serves_from w 1 [items]).
    { cbn. repeat split; trivial. intros ->. discriminate. }
    rewrite (loop_until_empty w [items] fuel 1 [] [] Hs H2) by (cbn; lia).
    exists items. eexists. split; [cbn [List.concat app]; now rewrite app_nil_r|].
    split; [reflexivity|]. split; [exact Hlen|]. split; reflexivity.
Qed.

Lemma get_all_providers_pacing_witness :
  exists result t,
    get_all_providers fifty_then_empty 2 [] = (Val result, t)
    /\ result = fifty_items
    /\ List.length result = 50%nat
    /\ delays t = [500]
    /\ requests t = [list_url 1; list_url 2].
Proof.
  apply (proj2 (get_all_providers_pacing fifty_then_empty 2) fifty_items).
  - reflexivity.
  - eexists; split; reflexivity.
  - eexists; split; reflexivity.
  - lia.
Defined.

(* ================================================================== *)
(** ** Extraction: the full crawl's [get_provider_downloads] *)
(* ================================================================== *)

Section ExtractFacts.

Variable repr : json -> string.

Lemma attr_get (a : dict) (k : string) (default : json) :
  get_method (JDict a) k default = Val (attr a k default).
Proof. unfold attr. cbn. now destruct (dict_get a k). Qed.

(** An object with an [id] and an [attributes] object gives a record. *)
Lemma extract_object (d a : dict) (provider_id : json) (t : trace) :
  dict_get d "id" = Some provider_id ->
  dict_get d "attributes" = Some (JDict a) ->
  get_provider_downloads repr (JDict d) t = (Val (Some (row_of repr provider_id a)), t).
Proof.
  intros Hid Ha. unfold get_provider_downloads, try_except, bind, lift.
  cbn [subscript]. rewrite Hid, Ha, !attr_get. reflexivity.
Qed.

(** Any other object gives [None], after one error line. *)
Lemma extract_malformed_object (d : dict) (t : trace) :
  (dict_get d "id" = None
   \/ dict_get d "attributes" = None
   \/ exists x, dict_get d "attributes" = Some x /\ forall a, x <> JDict a) ->
  exists e,
    get_provider_downloads repr (JDict d) t
    = (Val None, t ++ [process_error_log repr (attr d "id" JNull) e]).
Proof.
  intros H. unfold get_provider_downloads, try_except, bind, lift.
  cbn [subscript]. unfold attr.
  destruct (dict_get d "id") as [pid|] eqn:Hid.
  - destruct (dict_get d "attributes") as [x|] eqn:Ha.
    + destruct H as [H|[H|(y & Hy & Hnd)]]; try discriminate.
      injection Hy as <-.
      destruct x as [| | | | |a]; try (eexists; cbn; rewrite Hid; reflexivity).
      now elim (Hnd a).
    + eexists; cbn; rewrite Hid; reflexivity.
  - eexists; cbn; rewrite Hid; reflexivity.
Qed.

(** A raw item that is not an object: the handler's own
    [provider.get('id')] raises, and the exception leaves the function. *)
Lemma extract_non_object (provider : json) (t : trace) :
  (forall d, provider <> JDict d) ->
  get_provider_downloads repr provider t = (Exc AttributeError, t).
Proof.
  intros H. destruct provider; try reflexivity. now elim (H fields).
Qed.

(** The outcome does not depend on the trace so far, which is only
    extended. *)
Lemma extract_appends (provider : json) :
  exists o evs, forall t, get_provider_downloads repr provider t = (o, t ++ evs).
Proof.
  destruct provider as [| | | | |d];
    try (exists (Exc AttributeError), []; intros t; now rewrite app_nil_r).
  destruct (dict_get d "id") as [pid|] eqn:Hid.
  - destruct (dict_get d "attributes") as [x|] eqn:Ha.
    + destruct x as [| | | | |a].
      6:{ exists (Val (Some (row_of repr pid a))), []. intros t.
          rewrite app_nil_r. now apply extract_object. }
      all: eexists (Val None), _; intros t;
        unfold get_provider_downloads, try_except, bind, lift;
        cbn [subscript]; rewrite Hid, Ha; cbn; rewrite Hid; reflexivity.
    + eexists (Val None), _; intros t.
      unfold get_provider_downloads, try_except, bind, lift.
      cbn [subscript]. rewrite Hid, Ha. cbn. rewrite Hid. reflexivity.
  - eexists (Val None), _; intros t.
    unfold get_provider_downloads, try_except, bind, lift.
    cbn [subscript]. rewrite Hid. cbn. rewrite Hid. reflexivity.
Qed.

Lemma process_appends (providers : list json) :
  forall acc, exists o evs,
    forall t, process_providers repr providers acc t = (o, t ++ evs).
Proof.
  induction providers as [|provider rest IH]; intros acc.
  - exists (Val acc), []. intros t. cbn. now rewrite app_nil_r.
  - destruct (extract_appends provider) as (o & evs & Hp).
    destruct o as [[row|]|e|].
    + destruct (IH (acc ++ [row])) as (o1 & evs1 & H1).
      destruct (IH acc) as (o2 & evs2 & H2).
      destruct (truthy (JDict row)) eqn:Ht.
      * exists o1, (evs ++ evs1). intros t. cbn [process_providers].
        unfold bind. rewrite Hp, Ht, H1. now rewrite app_assoc.
      * exists o2, (evs ++ evs2). intros t. cbn [process_providers].
        unfold bind. rewrite Hp, Ht, H2. now rewrite app_assoc.
    + destruct (IH acc) as (o2 & evs2 & H2).
      exists o2, (evs ++ evs2). intros t. cbn [process_providers].
      unfold bind. rewrite Hp, H2. now rewrite app_assoc.
    + exists (Exc e), evs. intros t. cbn [process_providers].
      unfold bind. now rewrite Hp.
    + exists Diverged, evs. intros t. cbn [process_providers].
      unfold bind. now rewrite Hp.
Qed.

Lemma process_fst (providers : list json) (acc : list dict) (t u : trace) :
  fst (process_providers repr providers acc t)
  = fst (process_providers repr providers acc u).
Proof.
  destruct (process_appends providers acc) as (o & evs & H).
  now rewrite (H t), (H u).
Qed.

(** An item that yields [None] leaves the loop where it was. *)
Lemma process_skips (provider : json) (evs : trace) :
  (forall t, get_provider_downloads repr provider t = (Val None, t ++ evs)) ->
  forall before after acc t,
    fst (process_providers repr (before ++ provider :: after) acc t)
    = fst (process_providers repr (before ++ after) acc t).
Proof.
  intros Hnone before. induction before as [|b before IH]; intros after acc t.
  - cbn [app process_providers]. unfold bind. rewrite Hnone. apply process_fst.
  - cbn [app process_providers]. unfold bind.
    destruct (get_provider_downloads repr b t) as [[[row|]|e|] t']; trivial.
    destruct (truthy (JDict row)); apply IH.
Qed.

End ExtractFacts.

(** C8. Every record [get_provider_downloads] produces has a
    [full_name] that is the [namespace] value, a slash and the [name]
    value of the same record, each rendered as [str] renders it:
    namespace "hashicorp" and name "aws" give "hashicorp/aws", and a
    namespace that is null or missing gives "None/aws". *)
Theorem full_name_is_namespace_slash_name (repr : json -> string) :
  (forall (provider : json) (row : dict) (t t' : trace),
      get_provider_downloads repr provider t = (Val (Some row), t') ->
      exists namespace name,
        dict_get row "namespace" = Some namespace
        /\ dict_get row "name" = Some name
        /\ dict_get row "full_name"
           = Some (JStr (str repr namespace ++ "/" ++ str repr name)%string))
  /\ (exists row,
         get_provider_downloads repr
           (item_with (JDict [("namespace", JStr "hashicorp"); ("name", JStr "aws")])) []
         = (Val (Some row), [])
         /\ dict_get row "full_name" = Some (JStr "hashicorp/aws"))
  /\ (exists row,
         get_provider_downloads repr
           (item_with (JDict [("namespace", JNull); ("name", JStr "aws")])) []
         = (Val (Some row), [])
         /\ dict_get row "full_name" = Some (JStr "None/aws"))
  /\ (exists row,
         get_provider_downloads repr (item_with (JDict [("name", JStr "aws")])) []
         = (Val (Some row), [])
         /\ dict_get row "full_name" = Some (JStr "None/aws")).
Proof.
  split; [|repeat split; eexists; split; reflexivity].
  intros provider row t t' H.
  destruct provider as [| | | | |d]; try discriminate.
  destruct (dict_get d "id") as [pid|] eqn:Hid.
  - destruct (dict_get d "attributes") as [x|] eqn:Ha.
    + destruct x as [| | | | |a].
      6:{ rewrite (extract_object repr d a pid t Hid Ha) in H.
          injection H as <- _. eexists _, _. repeat split; reflexivity. }
      all: destruct (extract_malformed_object repr d t) as (e & He);
        [right; right; eexists; split; [exact Ha|discriminate]|];
        rewrite He in H; discriminate.
    + destruct (extract_malformed_object repr d t) as (e & He); [auto|].
      rewrite He in H; discriminate.
  - destruct (extract_malformed_object repr d t) as (e & He); [auto|].
    rewrite He in H; discriminate.
Qed.

Lemma full_name_is_namespace_slash_name_witness :
  exists namespace name,
    dict_get (row_of repr_unused (JStr "hashicorp/aws")
                [("namespace", JStr "hashicorp"); ("name", JStr "aws")]) "namespace"
    = Some namespace
    /\ dict_get (row_of repr_unused (JStr "hashicorp/aws")
                   [("namespace", JStr "hashicorp"); ("name", JStr "aws")]) "name"
       = Some name
    /\ dict_get (row_of repr_unused (JStr "hashicorp/aws")
                   [("namespace", JStr "hashicorp"); ("name", JStr "aws")]) "full_name"
       = Some (JStr (str repr_unused namespace ++ "/" ++ str repr_unused name)%string).
Proof.
  apply (proj1 (full_name_is_namespace_slash_name repr_unused)
           (item_with (JDict [("namespace", JStr "hashicorp"); ("name", JStr "aws")]))
           _ [] []).
  reflexivity.
Defined.

(** C6 does not hold of the code.  The raw item [null] has no
    [attributes] and is malformed; on it [provider['id']] raises inside
    the [try], and the handler that should log the item and return [None]
    raises [AttributeError] itself, on its own [provider.get('id')].  The
    exception leaves [get_provider_downloads] and ends the loop over the
    items before the next, well-formed one is reached. *)
Lemma extract_raises_on_null_item :
  ~ has_field JNull "attributes"
  /\ get_provider_downloads repr_unused JNull [] = (Exc AttributeError, [])
  /\ fst (process_providers repr_unused [JNull; raw_item 1] [] [])
     = Exc AttributeError.
Proof.
  split; [|split; reflexivity].
  intros (d & x & Hd & _). discriminate.
Qed.

(** X19. A raw item that is a JSON object without an [attributes]
    member, or without an [id] member, makes [get_provider_downloads]
    return [None] after one error line, without raising; and the loop
    over the items gives the result it gives with that item left out. *)
Theorem malformed_object_is_skipped (repr : json -> string) (d : dict) :
  ~ has_field (JDict d) "attributes" \/ ~ has_field (JDict d) "id" ->
  (forall t, exists e,
      get_provider_downloads repr (JDict d) t
      = (Val None, t ++ [process_error_log repr (attr d "id" JNull) e]))
  /\ (forall before after acc t,
         fst (process_providers repr (before ++ JDict d :: after) acc t)
         = fst (process_providers repr (before ++ after) acc t)).
Proof.
  intros Hlacks.
  assert (Hm : dict_get d "id" = None
               \/ dict_get d "attributes" = None
               \/ exists x, dict_get d "attributes" = Some x /\ forall a, x <> JDict a).
  { destruct Hlacks as [H|H].
    - right; left. destruct (dict_get d "attributes") as [x|] eqn:E; trivial.
      elim H. now exists d, x.
    - left. destruct (dict_get d "id") as [x|] eqn:E; trivial.
      elim H. now exists d, x. }
  destruct (extract_malformed_object repr d [] Hm) as (e & He).
  assert (Hall : forall t,
             get_provider_downloads repr (JDict d) t
             = (Val None, t ++ [process_error_log repr (attr d "id" JNull) e])).
  { intros t. destruct (extract_appends repr (JDict d)) as (o & evs & H).
    rewrite (H []) in He. cbn [app] in He. injection He as -> ->. apply H. }
  split.
  - intros t. exists e. apply Hall.
  - now apply (process_skips repr (JDict d) _ Hall).
Qed.

Lemma malformed_object_is_skipped_witness :
  fst (process_providers repr_unused
         [raw_item 1; JDict [("id", JStr "x")]; raw_item 2] [] [])
  = fst (process_providers repr_unused [raw_item 1; raw_item 2] [] []).
Proof.
  refine (proj2 (malformed_object_is_skipped repr_unused [("id", JStr "x")] _)
            [raw_item 1] [raw_item 2] [] []).
  left. intros (d & x & Hd & Hx). injection Hd as <-. discriminate.
Defined.

(* ================================================================== *)
(** ** The daily report *)
(* ================================================================== *)

Lemma dict_get_set_same {V : Type} (d : list (string * V)) (k : string) (v : V) :
  dict_get (dict_set d k v) k = Some v.
Proof.
  induction d as [|[k' v'] d IH]; cbn.
  - now rewrite String.eqb_refl.
  - destruct (String.eqb k' k) eqn:E; cbn; rewrite E; trivial.
Qed.

Lemma dict_get_set_other {V : Type} (d : list (string * V)) (k k' : string) (v : V) :
  k <> k' -> dict_get (dict_set d k v) k' = dict_get d k'.
Proof.
  intros Hne. induction d as [|[k0 v0] d IH]; cbn.
  - destruct (String.eqb_spec k k'); [contradiction|reflexivity].
  - destruct (String.eqb_spec k0 k) as [->|Hk]; cbn.
    + destruct (String.eqb_spec k k'); [contradiction|reflexivity].
    + now rewrite IH.
Qed.

Lemma dict_keys_set_new {V : Type} (d : list (string * V)) (k : string) (v : V) :
  ~ In k (dict_keys d) -> dict_keys (dict_set d k v) = dict_keys d ++ [k].
Proof.
  unfold dict_keys. induction d as [|[k0 v0] d IH]; cbn; intros Hn; [reflexivity|].
  destruct (String.eqb_spec k0 k) as [->|Hk]; [tauto|].
  cbn. rewrite IH; tauto.
Qed.

(** The daily [get_provider_downloads] always returns, and what it
    returns is [fetched]. *)
Lemma daily_fetch (w : world) (provider_path : string) (t : trace) :
  exists evs,
    Daily.get_provider_downloads w provider_path t
    = (Val (fetched w provider_path), t ++ evs).
Proof.
  unfold Daily.get_provider_downloads, fetched, detail_response.
  destruct (split "/" provider_path) as [|namespace [|name [|extra rest]]];
    try (eexists; reflexivity).
  unfold try_except, fetch_json, bind, emit, lift, raise, lift, ret.
  destruct (http_get w (Daily.detail_url namespace name)) as [e|body].
  - destruct e; eexists; cbn; unfold bind, log, emit, ret;
      rewrite <- app_assoc; reflexivity.
  - destruct body as [| | |s|items|d]; cbn [contains subscript attributes_of];
      try shape_done.
    + destruct (is_substring "data" s); shape_done.
    + destruct (existsb (is_str "data") items); shape_done.
    + destruct (dict_get d "data") as [x|]; [|shape_done].
      destruct x as [| | |s|items|inner]; cbn [contains subscript];
        try shape_done.
      * destruct (is_substring "attributes" s); shape_done.
      * destruct (existsb (is_str "attributes") items); shape_done.
      * destruct (dict_get inner "attributes") as [a|]; [|shape_done].
        destruct a as [| | | | |a]; try shape_done.
        cbn [get_method]. unfold attr.
        destruct (dict_get a "downloads"); shape_done.
Qed.

Lemma fetched_shape (w : world) (provider_path : string) (d : dict) :
  fetched w provider_path = Some d ->
  exists body a,
    detail_response w provider_path = Some (Body body)
    /\ attributes_of body = Some (JDict a)
    /\ d = [("downloads", attr a "downloads" (JInt 0))].
Proof.
  unfold fetched.
  destruct (detail_response w provider_path) as [[e|body]|]; try discriminate.
  destruct (attributes_of body) as [[| | | | |a]|] eqn:Ha; try discriminate.
  intros [= <-]. now exists body, a.
Qed.

(** One provider of the daily report: its snapshot is stored under its
    key, unless the success line cannot render the downloads value, in
    which case the exception of [format] leaves the loop body. *)
Lemma report_provider_cases (w : world) (rep : Daily.report)
  (provider_name provider_path : string) (t : trace) :
  (renders w provider_path = true
   /\ exists timestamp evs,
       Daily.report_provider w rep provider_name provider_path t
       = (Val (dict_set rep provider_name (snapshot_of w provider_path timestamp)),
          t ++ evs))
  \/ (renders w provider_path = false
      /\ exists e evs,
          Daily.report_provider w rep provider_name provider_path t
          = (Exc e, t ++ evs)).
Proof.
  destruct (daily_fetch w provider_path
              (t ++ [EvLog INFO ("Fetching statistics for " ++ provider_name ++ "...")%string
                       None])) as (evs & Hf).
  unfold renders, snapshot_of.
  destruct (fetched w provider_path) as [d|] eqn:F.
  - destruct (fetched_shape w provider_path d F) as (body & a & _ & _ & ->).
    change (attr [("downloads", attr a "downloads" (JInt 0))] "downloads" (JInt 0))
      with (attr a "downloads" (JInt 0)).
    revert Hf. generalize (attr a "downloads" (JInt 0)). intros v Hf.
    unfold renderable.
    destruct (format_comma v) as [shown|e|] eqn:Hv.
    + left. split; [reflexivity|]. eexists _, _.
      unfold Daily.report_provider, bind at 1, log, emit. unfold bind at 1.
      rewrite Hf.
      unfold bind, Daily.calculate_monthly_downloads, try_except, lift, now_iso,
        log, sleep, emit, ret.
      cbn -[format_comma]. rewrite Hv. rewrite <- !app_assoc. reflexivity.
    + right. split; [reflexivity|]. eexists _, _.
      unfold Daily.report_provider, bind at 1, log, emit. unfold bind at 1.
      rewrite Hf.
      unfold bind, Daily.calculate_monthly_downloads, try_except, lift, now_iso,
        log, sleep, emit, ret.
      cbn -[format_comma]. rewrite Hv. rewrite <- !app_assoc. reflexivity.
    + destruct v as [| | | | |]; discriminate.
  - left. split; [reflexivity|]. eexists _, _.
    unfold Daily.report_provider, bind at 1, log, emit. unfold bind at 1.
    rewrite Hf.
    unfold bind, now_iso, log, sleep, emit, ret.
    rewrite <- !app_assoc. reflexivity.
Qed.

(** The loop returns when every entry's downloads value renders. *)
Lemma report_loop_returns (w : world) (entries : list (string * string)) :
  forall (rep : Daily.report) (t : trace),
    (forall name path, In (name, path) entries -> renders w path = true) ->
    exists rep' t', Daily.report_loop w entries rep t = (Val rep', t').
Proof.
  induction entries as [|[name path] rest IH]; intros rep t Hr.
  - now exists rep, t.
  - cbn [Daily.report_loop]. unfold bind.
    destruct (report_provider_cases w rep name path t)
      as [(_ & ts & evs & E)|(Hn & _)].
    + rewrite E. apply IH. intros n p Hin. apply (Hr n p). now right.
    + rewrite (Hr name path (or_introl eq_refl)) in Hn. discriminate.
Qed.

(** What a returned report holds. *)
Lemma report_loop_result (w : world) (entries : list (string * string)) :
  forall (rep rep' : Daily.report) (t t' : trace),
    Daily.report_loop w entries rep t = (Val rep', t') ->
    (forall k, ~ In k (map fst entries) -> dict_get rep' k = dict_get rep k)
    /\ (NoDup (map fst entries) ->
        forall name path, In (name, path) entries ->
          renders w path = true
          /\ exists timestamp,
              dict_get rep' name = Some (snapshot_of w path timestamp))
    /\ (NoDup (map fst entries) ->
        (forall k, In k (map fst entries) -> ~ In k (dict_keys rep)) ->
        dict_keys rep' = dict_keys rep ++ map fst entries).
Proof.
  induction entries as [|[name path] rest IH]; intros rep rep' t t' H.
  - cbn in H. injection H as <- <-. split; [reflexivity|]. split.
    + intros _ n p [].
    + intros _ _. cbn. now rewrite app_nil_r.
  - cbn [Daily.report_loop] in H. unfold bind in H.
    destruct (report_provider_cases w rep name path t)
      as [(Hr & ts & evs & E)|(_ & e & evs & E)];
      rewrite E in H; [|discriminate].
    destruct (IH _ _ _ _ H) as (Hother & Hin & Hkeys).
    split; [|split].
    + intros k Hk. cbn [map fst In] in Hk.
      rewrite Hother by tauto.
      apply dict_get_set_other. intros ->. tauto.
    + intros Hnd n p [Heq|Hrest].
      * injection Heq as <- <-. split; [exact Hr|]. exists ts.
        inversion Hnd as [|? ? Hnotin _]; subst.
        rewrite Hother by exact Hnotin. apply dict_get_set_same.
      * inversion Hnd; subst. now apply Hin.
    + intros Hnd Hfresh. inversion Hnd as [|? ? Hnotin Hnd']; subst.
      assert (Hk : dict_keys (dict_set rep name (snapshot_of w path ts))
                   = dict_keys rep ++ [name]).
      { apply dict_keys_set_new. apply Hfresh. now left. }
      rewrite Hkeys; trivial.
      * rewrite Hk, <- app_assoc. reflexivity.
      * intros k Hk' Hin'. rewrite Hk in Hin'. apply in_app_or in Hin'.
        destruct Hin' as [Hin'|[<-|[]]].
        -- apply (Hfresh k); [now right|exact Hin'].
        -- cbn [map fst] in Hnotin. contradiction.
Qed.

Lemma providers_keys_distinct : NoDup (map fst Daily.providers).
Proof.
  cbn. repeat constructor; cbn; intuition discriminate.
Qed.

Lemma daily_fetch_value (w : world) (provider_path : string) (t : trace) :
  fst (Daily.get_provider_downloads w provider_path t) = Val (fetched w provider_path).
Proof.
  destruct (daily_fetch w provider_path t) as (evs & H). now rewrite H.
Qed.

(** C5, as stated, fails in its last part: a response whose [downloads]
    is [null] is returned as it is, and the result is not
    [{downloads: integer}]. *)
Lemma daily_fetch_returns_null_downloads :
  Daily.get_provider_downloads
    (uniform_registry (JDict [("downloads", JNull)])) "hashicorp/aws" []
  = (Val (Some [("downloads", JNull)]),
     [EvGet (Daily.detail_url "hashicorp" "aws")])
  /\ ~ (exists z : Z, [("downloads", JNull)] = [("downloads", JInt z)]).
Proof.
  split; [reflexivity|]. intros (z & H). discriminate.
Qed.

(** C5, amended.  For every [provider_path] the daily
    [get_provider_downloads] returns and never raises.  It returns
    [None] when the request fails, when the response lacks
    [data.attributes], and when the path is not of the form
    namespace/name.  A result other than [None] is the one-key dict
    [{downloads: v}], [v] being the [downloads] member of
    [data.attributes] as decoded, or the integer 0 when there is none. *)
Theorem daily_fetch_never_raises (w : world) (provider_path : string) (t : trace) :
  (exists r evs,
      Daily.get_provider_downloads w provider_path t = (Val r, t ++ evs))
  /\ (forall e, detail_response w provider_path = Some (Raises e) ->
                fst (Daily.get_provider_downloads w provider_path t) = Val None)
  /\ (forall body, detail_response w provider_path = Some (Body body) ->
                   attributes_of body = None ->
                   fst (Daily.get_provider_downloads w provider_path t) = Val None)
  /\ (detail_response w provider_path = None ->
      fst (Daily.get_provider_downloads w provider_path t) = Val None)
  /\ (forall d,
         fst (Daily.get_provider_downloads w provider_path t) = Val (Some d) ->
         exists body a,
           detail_response w provider_path = Some (Body body)
           /\ attributes_of body = Some (JDict a)
           /\ d = [("downloads", attr a "downloads" (JInt 0))]).
Proof.
  rewrite daily_fetch_value. repeat split.
  - destruct (daily_fetch w provider_path t) as (evs & H). eauto.
  - intros e He. unfold fetched. now rewrite He.
  - intros body Hb Ha. unfold fetched. now rewrite Hb, Ha.
  - intros Hn. unfold fetched. now rewrite Hn.
  - intros d [= Hd]. now apply fetched_shape.
Qed.

Lemma daily_fetch_never_raises_witness :
  fst (Daily.get_provider_downloads aws_only_registry "hashicorp/azurerm" [])
  = Val None.
Proof.
  apply (proj1 (proj2 (daily_fetch_never_raises aws_only_registry
                         "hashicorp/azurerm" []))
           RequestException).
  reflexivity.
Defined.

(** C3 does not hold of the code.  When the detail response of the
    first provider carries [downloads: null], [generate_report] stores
    that provider's snapshot and then raises [TypeError] while it formats
    the success line with [{downloads:,}]: no report is returned, and the
    six providers after it are neither requested nor recorded. *)
Theorem generate_report_stops_on_null_downloads :
  fst (Daily.generate_report (uniform_registry (JDict [("downloads", JNull)])) [])
  = Exc TypeError
  /\ requests (snd (Daily.generate_report
                      (uniform_registry (JDict [("downloads", JNull)])) []))
     = [Daily.detail_url "hashicorp" "aws"].
Proof. split; reflexivity. Qed.

(** When every downloads value fetched is a number, the report is
    returned and holds, under each of the seven keys and no other, the
    snapshot of that key's provider. *)
Lemma generate_report_numeric (w : world) (t : trace) :
  (forall name path, In (name, path) Daily.providers -> renders w path = true) ->
  exists rep t',
    Daily.generate_report w t = (Val rep, t')
    /\ dict_keys rep = map fst Daily.providers
    /\ forall name path, In (name, path) Daily.providers ->
         exists timestamp, dict_get rep name = Some (snapshot_of w path timestamp).
Proof.
  intros Hr. unfold Daily.generate_report.
  destruct (report_loop_returns w Daily.providers [] t Hr) as (rep & t' & E).
  exists rep, t'. split; [exact E|].
  destruct (report_loop_result w Daily.providers [] rep t t' E) as (_ & Hin & Hkeys).
  split.
  - apply (Hkeys providers_keys_distinct). intros k _ [].
  - intros name path H. now apply (Hin providers_keys_distinct).
Qed.

(** The mocked response of the specification: 12345 downloads for
    [aws]. *)
Example generate_report_aws_12345 :
  exists rep t timestamp,
    Daily.generate_report aws_only_registry [] = (Val rep, t)
    /\ dict_get rep "aws"
       = Some [("provider", JStr "hashicorp/aws");
               ("total_downloads", JInt 12345);
               ("timestamp", JStr timestamp)].
Proof. eexists _, _, _. split; reflexivity. Qed.

Lemma renderable_number (v : json) :
  renderable v = true -> (exists z, v = JInt z) \/ (exists b, v = JBool b).
Proof.
  destruct v; try discriminate; eauto.
Qed.

(** C10. In a report [generate_report] returns, the entry of a tracked
    provider has the [error] member exactly when [get_provider_downloads]
    returned [None] for that provider; a response with [data.attributes]
    but no [downloads] gives an entry with [total_downloads] 0 and no
    [error] member, the same count as a response whose [downloads] is 0.
    The report is returned whenever every downloads value fetched is a
    number. *)
Theorem error_field_iff_fetch_failed (w : world) (t : trace) :
  (forall rep t',
      Daily.generate_report w t = (Val rep, t') ->
      forall name path, In (name, path) Daily.providers ->
        exists snap,
          dict_get rep name = Some snap
          /\ (dict_get snap "error" <> None
              <-> fst (Daily.get_provider_downloads w path []) = Val None)
          /\ (forall body a,
                 detail_response w path = Some (Body body) ->
                 attributes_of body = Some (JDict a) ->
                 dict_get a "downloads" = None
                 \/ dict_get a "downloads" = Some (JInt 0) ->
                 dict_get snap "total_downloads" = Some (JInt 0)
                 /\ dict_get snap "error" = None))
  /\ ((forall name path, In (name, path) Daily.providers -> renders w path = true) ->
      exists rep t', Daily.generate_report w t = (Val rep, t')).
Proof.
  split.
  - intros rep t' E name path Hin.
    destruct (report_loop_result w Daily.providers [] rep t t' E) as (_ & Hres & _).
    destruct (Hres providers_keys_distinct name path Hin) as (_ & ts & Hsnap).
    exists (snapshot_of w path ts). split; [exact Hsnap|].
    rewrite daily_fetch_value. unfold snapshot_of.
    destruct (fetched w path) as [d|] eqn:F.
    + split.
      * split; [intros H; now elim H | discriminate].
      * intros body a Hb Ha Hd.
        destruct (fetched_shape w path d F) as (body' & a' & Hb' & Ha' & ->).
        rewrite Hb in Hb'. injection Hb' as <-.
        rewrite Ha in Ha'. injection Ha' as <-.
        unfold attr. cbn. destruct Hd as [-> | ->]; split; reflexivity.
    + split.
      * split; [reflexivity | discriminate].
      * intros body a Hb Ha Hd. unfold fetched in F. rewrite Hb, Ha in F.
        discriminate.
  - intros Hr. destruct (generate_report_numeric w t Hr) as (rep & t' & E & _).
    now exists rep, t'.
Qed.

Lemma error_field_iff_fetch_failed_witness :
  exists rep t', Daily.generate_report (uniform_registry (JDict [])) [] = (Val rep, t').
Proof.
  apply (proj2 (error_field_iff_fetch_failed (uniform_registry (JDict [])) [])).
  intros name path Hin. cbn in Hin.
  repeat (destruct Hin as [Hin|Hin]; [injection Hin as <- <-; reflexivity|]).
  destruct Hin.
Defined.




(* ================================================================== *)
(** ** Further properties of the pagination *)
(* ================================================================== *)

(** A pass whose [try] block raises outside [RequestException] lets the
    exception through: nothing is logged and nothing is returned. *)
Lemma loop_uncaught (w : world) (fuel : nat) (page : Z) (acc : list json)
  (t t' : trace) (e : exn) :
  fetch_page w page acc t = (Exc e, t') ->
  is_request_exception e = false ->
  get_all_providers_loop w (S fuel) page acc t = (Exc e, t').
Proof.
  intros Hp He. cbn [get_all_providers_loop].
  unfold bind at 1, try_except. rewrite Hp. cbn [dispatch]. rewrite He.
  reflexivity.
Qed.

Lemma run_then (w : world) (pages : list (list json)) (fuel : nat) (t : trace) :
  serves_from w 1 pages ->
  (List.length pages < fuel)%nat ->
  get_all_providers w fuel t
  = get_all_providers_loop w (S (fuel - S (List.length pages)))
      (1 + Z.of_nat (List.length pages)) (List.concat pages)
      (t ++ paced 1 (List.length pages)).
Proof.
  intros Hs Hfuel. unfold get_all_providers.
  replace fuel with (List.length pages + S (fuel - S (List.length pages)))%nat at 1 by lia.
  now rewrite loop_pages by exact Hs.
Qed.

(** X1. Any page whose body is an object with no [data] member, or with
    a [data] member that is false in a condition (null, false, 0, the
    empty string, an empty object), ends the pagination the way an empty
    array does: the pages so far are returned, and neither a delay nor an
    error line follows the request. *)
Theorem pagination_ends_on_falsy_data (w : world) (pages : list (list json))
  (fuel : nat) (fields : dict) :
  serves_from w 1 pages ->
  http_get w (list_url (1 + Z.of_nat (List.length pages))) = Body (JDict fields) ->
  dict_get fields "data" = None
  \/ (exists d, dict_get fields "data" = Some d /\ truthy d = false) ->
  (List.length pages < fuel)%nat ->
  get_all_providers w fuel []
  = (Val (List.concat pages),
     paced 1 (List.length pages)
       ++ [EvGet (list_url (1 + Z.of_nat (List.length pages)))]).
Proof.
  intros Hs Hget Hdata Hfuel.
  rewrite (run_then w pages fuel [] Hs Hfuel). cbn [app].
  destruct Hdata as [Hnone|(d & Hd & Hfalsy)].
  - apply (loop_last_page w _ _ _ _ (JDict fields) JNull); trivial.
    cbn. now rewrite Hnone.
  - apply (loop_last_page w _ _ _ _ (JDict fields) d); trivial.
    cbn. now rewrite Hd.
Qed.

Lemma pagination_ends_on_falsy_data_witness :
  get_all_providers
    (mock [page_of [raw_item 1]; Body (JDict [("errors", JStr "gone")])]
          (Raises OtherError)) 5 []
  = (Val [raw_item 1], [EvGet (list_url 1); EvSleep 500; EvGet (list_url 2)]).
Proof.
  apply (pagination_ends_on_falsy_data _ [[raw_item 1]] 5 [("errors", JStr "gone")]).
  - cbn [serves_from]. repeat split; try discriminate.
    eexists; split; reflexivity.
  - reflexivity.
  - left; reflexivity.
  - cbn; lia.
Defined.

(** X2. A page that decodes to something other than an object makes
    [get_all_providers] raise [AttributeError], and one whose [data] is
    [true] or a non-zero number makes it raise [TypeError].  Neither is
    caught: no error line is logged and the pages fetched so far are not
    returned. *)
Theorem pagination_raises_on_unusable_body (w : world) (pages : list (list json))
  (fuel : nat) (body : json) :
  serves_from w 1 pages ->
  http_get w (list_url (1 + Z.of_nat (List.length pages))) = Body body ->
  (List.length pages < fuel)%nat ->
  ((forall d, body <> JDict d) ->
   get_all_providers w fuel []
   = (Exc AttributeError,
      paced 1 (List.length pages)
        ++ [EvGet (list_url (1 + Z.of_nat (List.length pages)))]))
  /\ (forall d x,
         body = JDict d -> dict_get d "data" = Some x -> truthy_scalar x ->
         get_all_providers w fuel []
         = (Exc TypeError,
            paced 1 (List.length pages)
              ++ [EvGet (list_url (1 + Z.of_nat (List.length pages)))])).
Proof.
  intros Hs Hget Hfuel.
  rewrite (run_then w pages fuel [] Hs Hfuel). cbn [app].
  split.
  - intros Hno. apply loop_uncaught; [|reflexivity].
    unfold fetch_page, fetch_json, bind, emit, lift. rewrite Hget.
    destruct body; try reflexivity. now elim (Hno fields).
  - intros d x -> Hd Hx. apply loop_uncaught; [|reflexivity].
    unfold fetch_page, fetch_json, bind, emit, lift, sleep, emit, ret. rewrite Hget.
    cbn [get_method subscript]. rewrite Hd.
    destruct Hx as [->|(z & -> & Hz)]; cbn [truthy negb iter_items]; [reflexivity|].
    destruct (Z.eqb_spec z 0); [contradiction|reflexivity].
Qed.

Lemma pagination_raises_on_unusable_body_witness :
  get_all_providers
    (mock [page_of [raw_item 1]; Body (JList [raw_item 2])] (Raises OtherError)) 5 []
  = (Exc AttributeError, [EvGet (list_url 1); EvSleep 500; EvGet (list_url 2)]).
Proof.
  refine (proj1 (pagination_raises_on_unusable_body
                   (mock [page_of [raw_item 1]; Body (JList [raw_item 2])]
                         (Raises OtherError))
                   [[raw_item 1]] 5 (JList [raw_item 2]) _ _ _) _).
  - cbn [serves_from]. repeat split; try discriminate.
    eexists; split; reflexivity.
  - reflexivity.
  - cbn; lia.
  - discriminate.
Defined.

(** X3. Only [RequestException] is handled: any other exception of the
    HTTP exchange leaves [get_all_providers] with no error line, and the
    pages fetched so far are not returned. *)
Theorem pagination_lets_other_exceptions_through (w : world)
  (pages : list (list json)) (fuel : nat) (e : exn) :
  serves_from w 1 pages ->
  http_get w (list_url (1 + Z.of_nat (List.length pages))) = Raises e ->
  is_request_exception e = false ->
  (List.length pages < fuel)%nat ->
  get_all_providers w fuel []
  = (Exc e,
     paced 1 (List.length pages)
       ++ [EvGet (list_url (1 + Z.of_nat (List.length pages)))]).
Proof.
  intros Hs Hget He Hfuel.
  rewrite (run_then w pages fuel [] Hs Hfuel). cbn [app].
  apply loop_uncaught; [|exact He].
  unfold fetch_page, fetch_json, bind, emit, raise, lift. now rewrite Hget.
Qed.

Lemma pagination_lets_other_exceptions_through_witness :
  get_all_providers
    (mock [page_of [raw_item 1]; Raises ValueError] (Raises OtherError)) 5 []
  = (Exc ValueError, [EvGet (list_url 1); EvSleep 500; EvGet (list_url 2)]).
Proof.
  apply (pagination_lets_other_exceptions_through _ [[raw_item 1]] 5 ValueError).
  - cbn [serves_from]. repeat split; try discriminate.
    eexists; split; reflexivity.
  - reflexivity.
  - reflexivity.
  - cbn; lia.
Defined.

(** X4. The loop has no bound of its own: against a registry whose every
    page carries a non-empty [data] array, a run of any length is still
    going, having requested one page per pass and slept after each. *)
Theorem pagination_is_unbounded (w : world) (fuel : nat) :
  (forall page, 1 <= page -> exists items, items <> [] /\ serves w page items) ->
  fst (get_all_providers w fuel []) = Diverged
  /\ snd (get_all_providers w fuel []) = paced 1 fuel.
Proof.
  intros Hall. unfold get_all_providers.
  assert (H : forall n page acc t, 1 <= page ->
             get_all_providers_loop w n page acc t = (Diverged, t ++ paced page n)).
  { induction n as [|n IH]; intros page acc t Hp.
    - cbn. now rewrite app_nil_r.
    - destruct (Hall page Hp) as (items & Hne & Hserves).
      rewrite (loop_next_page w n page items acc t Hne Hserves).
      rewrite IH by lia. cbn [paced]. now rewrite <- app_assoc. }
  rewrite H by lia. split; reflexivity.
Qed.

Lemma pagination_is_unbounded_witness :
  fst (get_all_providers endless_registry 25 []) = Diverged
  /\ snd (get_all_providers endless_registry 25 []) = paced 1 25.
Proof.
  apply pagination_is_unbounded.
  intros page _. exists [raw_item 1]. split; [discriminate|].
  eexists; split; reflexivity.
Defined.

(* ================================================================== *)
(** ** Further properties of the full crawl's second phase *)
(* ================================================================== *)

Section CrawlFacts.

Variable repr : json -> string.

(** A run of [get_provider_downloads] on an object: the record, if the
    item has one, and at most one error line. *)
Lemma extract_run_object (d : dict) :
  exists evs,
    (forall t, get_provider_downloads repr (JDict d) t
               = (Val (record_of repr (JDict d)), t ++ evs))
    /\ requests evs = [] /\ delays evs = []
    /\ (record_of repr (JDict d) <> None -> evs = []).
Proof.
  cbn [record_of].
  destruct (dict_get d "id") as [pid|] eqn:Hid.
  - destruct (dict_get d "attributes") as [x|] eqn:Ha.
    + destruct x as [| | | | |a].
      6:{ exists []. split; [|auto].
          intros t. rewrite app_nil_r. now apply extract_object. }
      all: eexists; split;
        [intros t; unfold get_provider_downloads, try_except, bind, lift;
         cbn [subscript]; rewrite Hid, Ha; cbn; rewrite Hid; reflexivity|];
        repeat split; congruence.
    + eexists; split;
        [intros t; unfold get_provider_downloads, try_except, bind, lift;
         cbn [subscript]; rewrite Hid, Ha; cbn; rewrite Hid; reflexivity|].
      repeat split; congruence.
  - eexists; split;
      [intros t; unfold get_provider_downloads, try_except, bind, lift;
       cbn [subscript]; rewrite Hid; cbn; rewrite Hid; reflexivity|].
    repeat split; congruence.
Qed.

Lemma row_of_truthy (provider_id : json) (a : dict) :
  truthy (JDict (row_of repr provider_id a)) = true.
Proof. reflexivity. Qed.

Lemma record_of_truthy (item : json) (row : dict) :
  record_of repr item = Some row -> truthy (JDict row) = true.
Proof.
  destruct item as [| | | | |d]; try discriminate. cbn.
  destruct (dict_get d "id"); [|discriminate].
  destruct (dict_get d "attributes") as [[| | | | |a]|]; try discriminate.
  now intros [= <-].
Qed.

(** The loop over objects, with the events it adds. *)
Lemma process_objects (items : list json) :
  Forall (fun item => is_object item = true) items ->
  forall acc, exists evs,
    (forall t, process_providers repr items acc t
               = (Val (acc ++ records_of repr items), t ++ evs))
    /\ requests evs = [] /\ delays evs = [].
Proof.
  induction 1 as [|item items Hobj _ IH]; intros acc.
  - exists []. split; [|auto]. intros t. cbn. now rewrite !app_nil_r.
  - destruct item as [| | | | |d]; try discriminate.
    destruct (extract_run_object d) as (evs & Hrun & Hreq & Hdel & _).
    destruct (record_of repr (JDict d)) as [row|] eqn:Hrec.
    + destruct (IH (acc ++ [row])) as (evs' & Hrest & Hreq' & Hdel').
      exists (evs ++ evs'). split.
      * intros t. cbn [process_providers]. unfold bind. rewrite Hrun.
        rewrite (record_of_truthy _ _ Hrec), Hrest.
        unfold records_of. cbn [flat_map]. fold (records_of repr items).
        rewrite Hrec. now rewrite <- !app_assoc.
      * now rewrite requests_app, delays_app, Hreq, Hreq', Hdel, Hdel'.
    + destruct (IH acc) as (evs' & Hrest & Hreq' & Hdel').
      exists (evs ++ evs'). split.
      * intros t. cbn [process_providers]. unfold bind. rewrite Hrun, Hrest.
        unfold records_of. cbn [flat_map]. fold (records_of repr items).
        rewrite Hrec. now rewrite <- !app_assoc.
      * now rewrite requests_app, delays_app, Hreq, Hreq', Hdel, Hdel'.
Qed.

(** The loop over any items adds neither a request nor a delay. *)
Lemma process_events (items : list json) :
  forall acc, exists o evs,
    (forall t, process_providers repr items acc t = (o, t ++ evs))
    /\ requests evs = [] /\ delays evs = [].
Proof.
  induction items as [|item items IH]; intros acc.
  - exists (Val acc), []. split; [|auto]. intros t. cbn. now rewrite app_nil_r.
  - destruct item as [| | | | |d];
      try (exists (Exc AttributeError), []; split; [|auto]; intros t;
           cbn [process_providers]; unfold bind;
           rewrite extract_non_object by discriminate; now rewrite app_nil_r).
    destruct (extract_run_object d) as (evs & Hrun & Hreq & Hdel & _).
    destruct (record_of repr (JDict d)) as [row|] eqn:Hrec.
    + destruct (IH (acc ++ [row])) as (o & evs' & Hrest & Hreq' & Hdel').
      exists o, (evs ++ evs'). split.
      * intros t. cbn [process_providers]. unfold bind. rewrite Hrun.
        rewrite (record_of_truthy _ _ Hrec), Hrest. now rewrite <- app_assoc.
      * now rewrite requests_app, delays_app, Hreq, Hreq', Hdel, Hdel'.
    + destruct (IH acc) as (o & evs' & Hrest & Hreq' & Hdel').
      exists o, (evs ++ evs'). split.
      * intros t. cbn [process_providers]. unfold bind. rewrite Hrun, Hrest.
        now rewrite <- app_assoc.
      * now rewrite requests_app, delays_app, Hreq, Hreq', Hdel, Hdel'.
Qed.

End CrawlFacts.

(** X5. [get_provider_downloads] of the full crawl gives a record
    exactly for the raw items that are objects with an [id] member and an
    [attributes] member that is itself an object.  The record has the
    nine columns of the dict literal, in that order, its [id] is the
    item's, and producing it logs nothing. *)
Theorem record_exactly_for_well_formed_objects (repr : json -> string)
  (provider : json) (t : trace) :
  (forall row t',
      get_provider_downloads repr provider t = (Val (Some row), t') ->
      t' = t
      /\ dict_keys row = columns
      /\ exists d provider_id a,
           provider = JDict d
           /\ dict_get d "id" = Some provider_id
           /\ dict_get d "attributes" = Some (JDict a)
           /\ dict_get row "id" = Some provider_id)
  /\ (forall d provider_id a,
         provider = JDict d ->
         dict_get d "id" = Some provider_id ->
         dict_get d "attributes" = Some (JDict a) ->
         exists row, get_provider_downloads repr provider t = (Val (Some row), t)).
Proof.
  split.
  - intros row t' H.
    destruct provider as [| | | | |d]; try discriminate.
    destruct (extract_run_object repr d) as (evs & Hrun & _ & _ & Hnil).
    rewrite Hrun in H. injection H as Hrec <-.
    change (record_of repr (JDict d) = Some row) in Hrec.
    assert (Hevs : evs = []) by (apply Hnil; rewrite Hrec; discriminate).
    rewrite Hevs, app_nil_r. split; [reflexivity|].
    cbn [record_of] in Hrec.
    destruct (dict_get d "id") as [pid|] eqn:Hid; [|discriminate].
    destruct (dict_get d "attributes") as [[| | | | |a]|] eqn:Ha; try discriminate.
    injection Hrec as <-. split; [reflexivity|].
    exists d, pid, a. repeat split; trivial.
  - intros d pid a -> Hid Ha. eexists. exact (extract_object repr d a pid t Hid Ha).
Qed.

Lemma record_exactly_for_well_formed_objects_witness :
  exists row,
    get_provider_downloads repr_unused (raw_item 7) [] = (Val (Some row), []).
Proof.
  apply (proj2 (record_exactly_for_well_formed_objects repr_unused (raw_item 7) [])
           [("id", JStr "7");
            ("attributes", JDict [("namespace", JStr "hashicorp");
                                  ("name", JStr "aws");
                                  ("downloads", JInt 7)])]
           (JStr "7")
           [("namespace", JStr "hashicorp"); ("name", JStr "aws");
            ("downloads", JInt 7)]);
    reflexivity.
Defined.

(** X6. The second phase of the crawl is offline, whatever the items:
    the loop over the raw items adds no HTTP request and no delay to the
    trace. *)
Theorem crawl_second_phase_is_offline (repr : json -> string)
  (items : list json) (acc : list dict) (t : trace) :
  requests (snd (process_providers repr items acc t)) = requests t
  /\ delays (snd (process_providers repr items acc t)) = delays t.
Proof.
  destruct (process_events repr items acc) as (o & evs & H & Hreq & Hdel).
  rewrite H. cbn [snd]. rewrite requests_app, delays_app, Hreq, Hdel.
  now rewrite !app_nil_r.
Qed.

(** X7. When every raw item is an object, the loop of [generate_report]
    returns, after the records it started with, the records of the items
    that have one, in the order of the items; an item without a record
    costs nothing but its error line. *)
Theorem process_providers_collects_records (repr : json -> string)
  (items : list json) (acc : list dict) (t : trace) :
  Forall (fun item => is_object item = true) items ->
  fst (process_providers repr items acc t) = Val (acc ++ records_of repr items)
  /\ (List.length (records_of repr items) <= List.length items)%nat.
Proof.
  intros Hobj. split.
  - destruct (process_objects repr items Hobj acc) as (evs & H & _).
    now rewrite H.
  - clear. induction items as [|item items IH]; [cbn; lia|].
    unfold records_of. cbn [flat_map]. fold (records_of repr items).
    rewrite length_app. destruct (record_of repr item); cbn; lia.
Qed.

Lemma process_providers_collects_records_witness :
  fst (process_providers repr_unused
         [raw_item 1; JDict [("id", JStr "x")]; raw_item 2] [] [])
  = Val ([] ++ records_of repr_unused
                 [raw_item 1; JDict [("id", JStr "x")]; raw_item 2]).
Proof.
  apply process_providers_collects_records.
  repeat constructor.
Defined.



(** X9. The two phases together: when pages 1..n carry non-empty arrays
    of objects and page n+1 an empty array, [generate_report] returns the
    records of the items of pages 1..n, in page order; the only requests
    of the whole run are those for pages 1..n+1, and the number of raw
    items is logged. *)
Theorem generate_report_gives_records_of_all_pages (repr : json -> string)
  (w : world) (pages : list (list json)) (fuel : nat) :
  serves_from w 1 pages ->
  serves w (1 + Z.of_nat (List.length pages)) [] ->
  (List.length pages < fuel)%nat ->
  Forall (fun item => is_object item = true) (List.concat pages) ->
  fst (FullCrawl.generate_report repr w fuel [])
  = Val (records_of repr (List.concat pages))
  /\ requests (snd (FullCrawl.generate_report repr w fuel []))
     = map list_url (page_range 1 (S (List.length pages)))
  /\ In (EvLog INFO
           ("Found " ++ str_int (Z.of_nat (List.length (List.concat pages)))
                     ++ " providers")%string None)
        (snd (FullCrawl.generate_report repr w fuel [])).
Proof.
  intros Hs Hlast Hfuel Hobj.
  destruct (process_objects repr (List.concat pages) Hobj []) as (evs & Hp & Hreq & _).
  unfold FullCrawl.generate_report, bind, log, emit, get_all_providers.
  rewrite (loop_until_empty w pages fuel 1 [] _ Hs Hlast Hfuel).
  cbn [app]. rewrite Hp. cbn [fst snd].
  split; [reflexivity|]. split.
  - rewrite requests_app, Hreq, app_nil_r.
    change (requests (?a :: ?l)) with (requests [a] ++ requests l).
    rewrite !requests_app, requests_paced, page_range_snoc, map_app.
    cbn. now rewrite app_nil_r.
  - apply in_or_app. left. right. apply in_or_app. right. now left.
Qed.

Lemma generate_report_gives_records_of_all_pages_witness :
  fst (FullCrawl.generate_report repr_unused three_page_registry 3 [])
  = Val (records_of repr_unused [raw_item 1; raw_item 2; raw_item 3]).
Proof.
  apply (generate_report_gives_records_of_all_pages repr_unused three_page_registry
           [[raw_item 1; raw_item 2]; [raw_item 3]] 3).
  - cbn [serves_from]. repeat split; try discriminate;
      eexists; split; reflexivity.
  - eexists; split; reflexivity.
  - cbn; lia.
  - repeat constructor.
Defined.

(** A [try] whose one clause catches every class and whose handler
    returns does not raise. *)
Lemma try_except_all {A : Type} (body : M A) (handler : exn -> M A) (t : trace) :
  (forall e u, exists a u', handler e u = (Val a, u')) ->
  forall e, fst (try_except body [(is_exception, handler)] t) <> Exc e.
Proof.
  intros Hh e. unfold try_except.
  destruct (body t) as [[a|e'|] t']; cbn; try discriminate.
  destruct (Hh e' t') as (a & u' & E). rewrite E. discriminate.
Qed.

(** X10. [main] of the full crawl never raises, whatever [save_report]
    does.  When [generate_report] raises, as it does on a raw item that
    is not an object, [main] logs one "Unexpected error" line and returns
    normally, and [save_report] is not called: no report file is
    written. *)
Theorem full_main_swallows_exceptions (repr : json -> string)
  (save_report : list dict -> M unit) (w : world) (fuel : nat) (t : trace) :
  (forall e, fst (FullCrawlRun.main repr save_report w fuel t) <> Exc e)
  /\ (forall e t',
         FullCrawl.generate_report repr w fuel
           (t ++ [EvLog INFO "Starting Terraform Registry Full Provider Statistics" None])
         = (Exc e, t') ->
         FullCrawlRun.main repr save_report w fuel t
         = (Val tt, t' ++ [EvLog ERROR "Unexpected error: " (Some e)])).
Proof.
  split.
  - intros e. unfold FullCrawlRun.main, bind at 1, log at 1, emit.
    apply try_except_all. intros e' u. now eexists _, _.
  - intros e t' H. unfold FullCrawlRun.main, bind at 1, log at 1, emit.
    unfold try_except, bind at 1. rewrite H. reflexivity.
Qed.

Lemma full_main_swallows_exceptions_witness :
  exists t',
    FullCrawlRun.main repr_unused (fun _ => ret tt)
      (mock [page_of [JNull]; page_of []] (Raises OtherError)) 5 []
    = (Val tt, t' ++ [EvLog ERROR "Unexpected error: " (Some AttributeError)]).
Proof.
  eexists.
  apply (proj2 (full_main_swallows_exceptions repr_unused (fun _ => ret tt)
                  (mock [page_of [JNull]; page_of []] (Raises OtherError)) 5 [])
           AttributeError).
  reflexivity.
Defined.

(* ================================================================== *)
(** ** Further properties of the daily report *)
(* ================================================================== *)

Lemma split_length (s : string) :
  List.length (split "/" s) = S (slashes s).
Proof.
  induction s as [|a s IH]; [reflexivity|].
  cbn [split slashes]. destruct (Ascii.eqb a "/"); cbn [List.length].
  - now rewrite IH.
  - destruct (split "/" s); cbn in *; lia.
Qed.

Lemma split_plain (s : string) : slashes s = O -> split "/" s = [s].
Proof.
  induction s as [|a s IH]; [reflexivity|].
  cbn [split slashes]. destruct (Ascii.eqb a "/"); [discriminate|].
  intros H. now rewrite IH.
Qed.

Lemma split_path (namespace name : string) :
  slashes namespace = O -> slashes name = O ->
  split "/" (namespace ++ "/" ++ name)%string = [namespace; name].
Proof.
  intros Hns Hname. induction namespace as [|a ns IH].
  - cbn. now rewrite split_plain.
  - cbn [String.append split]. cbn [slashes] in Hns.
    destruct (Ascii.eqb a "/"); [discriminate|].
    cbn [String.append] in IH. now rewrite IH.
Qed.

(** The daily [get_provider_downloads], with the events it adds: the
    request, if the path has the two parts, and at most one line. *)
Lemma daily_fetch_events (w : world) (provider_path : string) (t : trace) :
  exists evs,
    Daily.get_provider_downloads w provider_path t
    = (Val (fetched w provider_path), t ++ evs)
    /\ delays evs = []
    /\ requests evs = detail_request provider_path.
Proof.
  unfold Daily.get_provider_downloads, fetched, detail_response, detail_request.
  destruct (split "/" provider_path) as [|namespace [|name [|extra rest]]];
    try (eexists; split; [reflexivity|split; reflexivity]).
  unfold try_except, fetch_json, bind, emit, lift, raise, lift, ret.
  destruct (http_get w (Daily.detail_url namespace name)) as [e|body].
  - destruct e; eexists; (split; [|split]);
      try (cbn; unfold bind, log, emit, ret; rewrite <- app_assoc; reflexivity);
      reflexivity.
  - destruct body as [| | |s|items|d]; cbn [contains subscript attributes_of];
      try events_done.
    + destruct (is_substring "data" s); events_done.
    + destruct (existsb (is_str "data") items); events_done.
    + destruct (dict_get d "data") as [x|]; [|events_done].
      destruct x as [| | |s|items|inner]; cbn [contains subscript];
        try events_done.
      * destruct (is_substring "attributes" s); events_done.
      * destruct (existsb (is_str "attributes") items); events_done.
      * destruct (dict_get inner "attributes") as [a|]; [|events_done].
        destruct a as [| | | | |a]; try events_done.
        cbn [get_method]. unfold attr.
        destruct (dict_get a "downloads"); events_done.
Qed.

(** X11. The daily [get_provider_downloads] makes exactly one request
    for a path of the form namespace/name, to the registry's
    [/providers/] endpoint followed by the path as given.  A path with
    no slash, or with more than one, makes no request at all: the
    unpacking raises [ValueError], which is logged as an unexpected
    error, and [None] is returned. *)
Theorem daily_fetch_request (w : world) (provider_path : string) (t : trace) :
  (forall namespace name,
      slashes namespace = O -> slashes name = O ->
      provider_path = (namespace ++ "/" ++ name)%string ->
      requests (snd (Daily.get_provider_downloads w provider_path t))
      = requests t ++ [(base_url ++ "/providers/" ++ provider_path)%string])
  /\ (slashes provider_path <> 1%nat ->
      Daily.get_provider_downloads w provider_path t
      = (Val None,
         t ++ [EvLog ERROR ("Unexpected error for " ++ provider_path ++ ": ")%string
                 (Some ValueError)])).
Proof.
  split.
  - intros namespace name Hns Hname ->.
    destruct (daily_fetch_events w (namespace ++ "/" ++ name)%string t)
      as (evs & E & _ & Hreq).
    rewrite E. cbn [snd]. rewrite requests_app, Hreq.
    unfold detail_request. now rewrite split_path.
  - intros Hn. assert (Hlen := split_length provider_path).
    unfold Daily.get_provider_downloads, try_except.
    destruct (split "/" provider_path) as [|a [|b [|c rest]]]; cbn in Hlen;
      try reflexivity.
    lia.
Qed.

Lemma daily_fetch_request_witness :
  Daily.get_provider_downloads aws_only_registry "hashicorp/aws/extra" []
  = (Val None,
     [] ++ [EvLog ERROR "Unexpected error for hashicorp/aws/extra: " (Some ValueError)]).
Proof.
  apply (proj2 (daily_fetch_request aws_only_registry "hashicorp/aws/extra" [])).
  cbn. lia.
Defined.

(** X12. What the daily [get_provider_downloads] logs.  A failed
    exchange gives one error line, "Error fetching data for" when the
    exception is a [RequestException] and "Unexpected error for"
    otherwise.  A body that is an object without a [data] member, or
    whose [data] is an object without an [attributes] member, gives
    [None] with no line at all. *)
Theorem daily_fetch_log_lines (w : world) (provider_path : string) (t : trace) :
  (forall e,
      detail_response w provider_path = Some (Raises e) ->
      Daily.get_provider_downloads w provider_path t
      = (Val None,
         t ++ map EvGet (detail_request provider_path)
           ++ [EvLog ERROR
                 ((if is_request_exception e then "Error fetching data for "
                   else "Unexpected error for ") ++ provider_path ++ ": ")%string
                 (Some e)]))
  /\ (forall d,
         detail_response w provider_path = Some (Body (JDict d)) ->
         dict_get d "data" = None
         \/ (exists inner, dict_get d "data" = Some (JDict inner)
                           /\ dict_get inner "attributes" = None) ->
         Daily.get_provider_downloads w provider_path t
         = (Val None, t ++ map EvGet (detail_request provider_path))).
Proof.
  unfold detail_response, detail_request, Daily.get_provider_downloads.
  destruct (split "/" provider_path) as [|namespace [|name [|extra rest]]];
    try (split; intros; discriminate).
  unfold try_except, fetch_json, bind, emit, lift, raise, lift, ret.
  split.
  - intros e [= ->]. destruct e; cbn; unfold bind, log, emit, ret;
      now rewrite <- app_assoc.
  - intros d [= ->] [Hnone|(inner & Hd & Hnone)]; cbn [contains subscript].
    + now rewrite Hnone.
    + rewrite Hd. cbn [contains]. now rewrite Hnone.
Qed.

Lemma daily_fetch_log_lines_witness :
  Daily.get_provider_downloads
    {| http_get := fun _ => Body (JDict [("data", JDict [("type", JStr "providers")])]);
       clock := fun _ => "" |}
    "hashicorp/aws" []
  = (Val None, [] ++ map EvGet (detail_request "hashicorp/aws")).
Proof.
  refine (proj2 (daily_fetch_log_lines _ "hashicorp/aws" [])
            [("data", JDict [("type", JStr "providers")])] _ _).
  - reflexivity.
  - right. eexists. split; reflexivity.
Defined.

(** X13. [calculate_monthly_downloads] is the plain lookup
    [data.get('downloads', 0)]: it hands back whatever value is stored,
    of whatever type, and 0 for a missing key or an empty dict.  Its
    handler for [KeyError] and [TypeError] is never entered: the function
    never logs and never raises. *)
Theorem calculate_monthly_downloads_is_lookup (data : dict) (t : trace) :
  Daily.calculate_monthly_downloads data t
  = (Val (attr data "downloads" (JInt 0)), t).
Proof.
  unfold Daily.calculate_monthly_downloads, attr.
  destruct data as [|[k v] rest]; [reflexivity|].
  cbn [truthy negb]. unfold try_except, lift. cbn [get_method].
  now destruct (dict_get ((k, v) :: rest) "downloads").
Qed.

(** One provider of the daily report, with the events it adds and the
    class of what it raises. *)
Lemma report_provider_events (w : world) (rep : Daily.report)
  (provider_name provider_path : string) (t : trace) :
  (renders w provider_path = true
   /\ exists timestamp evs,
       Daily.report_provider w rep provider_name provider_path t
       = (Val (dict_set rep provider_name (snapshot_of w provider_path timestamp)),
          t ++ evs)
       /\ delays evs = [1000]
       /\ requests evs = detail_request provider_path)
  \/ (renders w provider_path = false
      /\ exists e evs,
          Daily.report_provider w rep provider_name provider_path t
          = (Exc e, t ++ evs)
          /\ (e = TypeError \/ e = ValueError)).
Proof.
  destruct (daily_fetch_events w provider_path
              (t ++ [EvLog INFO ("Fetching statistics for " ++ provider_name ++ "...")%string
                       None])) as (evs & Hf & Hdel & Hreq).
  unfold renders, snapshot_of.
  destruct (fetched w provider_path) as [d|] eqn:F.
  - destruct (fetched_shape w provider_path d F) as (body & a & _ & _ & ->).
    change (attr [("downloads", attr a "downloads" (JInt 0))] "downloads" (JInt 0))
      with (attr a "downloads" (JInt 0)).
    revert Hf. generalize (attr a "downloads" (JInt 0)). intros v Hf.
    unfold renderable.
    destruct (format_comma v) as [shown|e|] eqn:Hv.
    + left. split; [reflexivity|].
      exists (clock w (List.length
                         ((t ++ [EvLog INFO
                                   ("Fetching statistics for " ++ provider_name ++ "...")%string
                                   None]) ++ evs))).
      exists ([EvLog INFO ("Fetching statistics for " ++ provider_name ++ "...")%string None]
              ++ evs
              ++ [EvNow;
                  EvLog INFO ("Successfully fetched " ++ provider_name
                              ++ " downloads: " ++ shown)%string None;
                  EvSleep 1000]).
      split; [|split].
      * unfold Daily.report_provider, bind at 1, log, emit. unfold bind at 1.
        rewrite Hf.
        unfold bind, Daily.calculate_monthly_downloads, try_except, lift, now_iso,
          log, sleep, emit, ret.
        cbn -[format_comma String.append]. rewrite Hv.
        rewrite <- !app_assoc. reflexivity.
      * rewrite !delays_app, Hdel. reflexivity.
      * rewrite !requests_app, Hreq. cbn. now rewrite app_nil_r.
    + right. split; [reflexivity|]. exists e. eexists. split.
      * unfold Daily.report_provider, bind at 1, log, emit. unfold bind at 1.
        rewrite Hf.
        unfold bind, Daily.calculate_monthly_downloads, try_except, lift, now_iso,
          log, sleep, emit, ret.
        cbn -[format_comma]. rewrite Hv. rewrite <- !app_assoc. reflexivity.
      * destruct v; cbn in Hv; try discriminate; injection Hv as <-; auto.
    + destruct v as [| | | | |]; discriminate.
  - left. split; [reflexivity|].
    exists (clock w (List.length
                       ((t ++ [EvLog INFO
                                 ("Fetching statistics for " ++ provider_name ++ "...")%string
                                 None]) ++ evs))).
    exists ([EvLog INFO ("Fetching statistics for " ++ provider_name ++ "...")%string None]
            ++ evs
            ++ [EvNow;
                EvLog WARNING ("Failed to fetch data for " ++ provider_name)%string None;
                EvSleep 1000]).
    split; [|split].
    + unfold Daily.report_provider, bind at 1, log, emit. unfold bind at 1.
      rewrite Hf.
      unfold bind, now_iso, log, sleep, emit, ret.
      rewrite <- !app_assoc. reflexivity.
    + rewrite !delays_app, Hdel. reflexivity.
    + rewrite !requests_app, Hreq. cbn. now rewrite app_nil_r.
Qed.

(** The loop of the daily report, with the events it adds: either every
    entry renders and the report is returned, or some entry does not and
    the loop raises what [format] raised. *)
Lemma report_loop_events (w : world) (entries : list (string * string)) :
  forall (rep : Daily.report) (t : trace),
    (exists rep' evs,
        Daily.report_loop w entries rep t = (Val rep', t ++ evs)
        /\ delays evs = repeat 1000 (List.length entries)
        /\ requests evs = flat_map (fun entry => detail_request (snd entry)) entries
        /\ forall name path, In (name, path) entries -> renders w path = true)
    \/ (exists e evs,
           Daily.report_loop w entries rep t = (Exc e, t ++ evs)
           /\ (e = TypeError \/ e = ValueError)
           /\ exists name path, In (name, path) entries /\ renders w path = false).
Proof.
  induction entries as [|[name path] rest IH]; intros rep t.
  - left. exists rep, []. cbn. rewrite app_nil_r. repeat split. intros ? ? [].
  - cbn [Daily.report_loop]. unfold bind.
    destruct (report_provider_events w rep name path t)
      as [(Hr & ts & evs & E & Hdel & Hreq)|(Hr & e & evs & E & He)]; rewrite E.
    + destruct (IH (dict_set rep name (snapshot_of w path ts)) (t ++ evs))
        as [(rep' & evs' & E' & Hdel' & Hreq' & Hall)
           |(e & evs' & E' & He & n & p & Hin & Hn)].
      * left. exists rep', (evs ++ evs'). rewrite E', app_assoc.
        split; [reflexivity|]. split; [|split].
        -- now rewrite delays_app, Hdel, Hdel'.
        -- cbn [flat_map snd]. now rewrite requests_app, Hreq, Hreq'.
        -- intros n p [[= <- <-]|Hin]; [exact Hr|now apply (Hall n p)].
      * right. exists e, (evs ++ evs'). rewrite E', app_assoc.
        split; [reflexivity|]. split; [exact He|].
        exists n, p. split; [now right|exact Hn].
    + right. exists e, evs. split; [reflexivity|]. split; [exact He|].
      exists name, path. split; [now left|exact Hr].
Qed.

Lemma renders_iff_number (w : world) (provider_path : string) :
  renders w provider_path = true
  <-> forall v,
        fst (Daily.get_provider_downloads w provider_path [])
        = Val (Some [("downloads", v)]) ->
        is_number v.
Proof.
  rewrite daily_fetch_value. unfold renders.
  destruct (fetched w provider_path) as [d|] eqn:F.
  - destruct (fetched_shape w provider_path d F) as (body & a & _ & _ & ->).
    change (attr [("downloads", attr a "downloads" (JInt 0))] "downloads" (JInt 0))
      with (attr a "downloads" (JInt 0)).
    split.
    + intros Hr v [= <-]. now apply renderable_number.
    + intros H. destruct (H _ eq_refl) as [(z & ->)|(b & ->)]; reflexivity.
  - split; [intros _ v; discriminate|reflexivity].
Qed.

Lemma number_iff_formattable (v : json) : is_number v <-> ~ unformattable v.
Proof.
  unfold is_number, unformattable. split.
  - intros [(z & ->)|(b & ->)] [H|[(? & H)|[(? & H)|(? & H)]]]; discriminate.
  - intros H. destruct v; eauto; elim H; eauto 6.
Qed.

(** X14. The daily [generate_report] returns a report exactly when no
    result [get_provider_downloads] gives for a tracked provider carries
    a value the success line cannot format, that is null, a string, an
    array or an object.  Otherwise it raises [TypeError] or [ValueError],
    the exception of the [{downloads:,}] field.  Failed requests never
    keep it from returning. *)
Theorem daily_report_returns_unless_unformattable (w : world) (t : trace) :
  ((exists rep t', Daily.generate_report w t = (Val rep, t'))
   <-> (forall name path v,
           In (name, path) Daily.providers ->
           fst (Daily.get_provider_downloads w path [])
           = Val (Some [("downloads", v)]) ->
           ~ unformattable v))
  /\ (forall e t',
         Daily.generate_report w t = (Exc e, t') -> e = TypeError \/ e = ValueError)
  /\ fst (Daily.generate_report w t) <> Diverged
  /\ ((forall name path,
          In (name, path) Daily.providers ->
          fst (Daily.get_provider_downloads w path []) = Val None) ->
      exists rep t', Daily.generate_report w t = (Val rep, t')).
Proof.
  unfold Daily.generate_report.
  destruct (report_loop_events w Daily.providers [] t)
    as [(rep & evs & E & _ & _ & Hall)|(e & evs & E & He & n & p & Hin & Hn)];
    rewrite E.
  - split; [split|split; [|split]].
    + intros _ name path v Hin Hv. apply number_iff_formattable.
      revert v Hv. apply renders_iff_number. now apply (Hall name path).
    + intros _. now exists rep, (t ++ evs).
    + intros e t' [=].
    + discriminate.
    + intros _. now exists rep, (t ++ evs).
  - split; [split|split; [|split]].
    + intros (rep & t' & [=]).
    + intros H. assert (Hr : renders w p = true).
      { apply renders_iff_number. intros v Hv. apply number_iff_formattable.
        now apply (H n p v). }
      rewrite Hr in Hn. discriminate.
    + intros e' t' [= <- _]. exact He.
    + discriminate.
    + intros H. specialize (H n p Hin). rewrite daily_fetch_value in H.
      injection H as H. unfold renders in Hn. rewrite H in Hn. discriminate.
Qed.

Lemma daily_report_returns_unless_unformattable_witness :
  exists rep t', Daily.generate_report unreachable_registry [] = (Val rep, t').
Proof.
  apply (proj2 (proj2 (proj2
           (daily_report_returns_unless_unformattable unreachable_registry [])))).
  intros name path Hin. cbn in Hin.
  repeat (destruct Hin as [Hin|Hin]; [injection Hin as <- <-; reflexivity|]).
  destruct Hin.
Defined.

(** X15. A run of the daily [generate_report] that returns has made
    seven requests, one per tracked provider in the order of the mapping,
    each to [/providers/] followed by the provider's path, and has slept
    one second after each provider, seven times in all, whether its fetch
    succeeded or not. *)
Theorem daily_report_pacing (w : world) (t t' : trace) (rep : Daily.report) :
  Daily.generate_report w t = (Val rep, t') ->
  exists evs,
    t' = t ++ evs
    /\ delays evs = repeat 1000 7
    /\ requests evs
       = map (fun entry => (base_url ++ "/providers/" ++ snd entry)%string)
             Daily.providers.
Proof.
  unfold Daily.generate_report. intros H.
  destruct (report_loop_events w Daily.providers [] t)
    as [(rep' & evs & E & Hdel & Hreq & _)|(e & evs & E & _)];
    rewrite E in H; [|discriminate].
  injection H as _ <-. exists evs. split; [reflexivity|].
  split; [exact Hdel|]. rewrite Hreq. reflexivity.
Qed.

Lemma daily_report_pacing_witness :
  exists evs,
    snd (Daily.generate_report unreachable_registry []) = [] ++ evs
    /\ delays evs = repeat 1000 7
    /\ requests evs
       = map (fun entry => (base_url ++ "/providers/" ++ snd entry)%string)
             Daily.providers.
Proof.
  eapply (daily_report_pacing unreachable_registry []).
  reflexivity.
Defined.

(** X16. A report the daily [generate_report] returns has the seven keys
    of the mapping, in its order, and no other.  The entry of a key names
    the provider path the key is mapped to, holds a number as
    [total_downloads] and a timestamp, and has either exactly these three
    members or, after them, the [error] member "Failed to fetch data"
    with [total_downloads] 0. *)
Theorem daily_report_shape (w : world) (t t' : trace) (rep : Daily.report) :
  Daily.generate_report w t = (Val rep, t') ->
  dict_keys rep
  = ["aws"; "azure"; "gcp"; "datadog"; "splunk"; "databricks"; "elastic"]
  /\ forall name path,
       In (name, path) Daily.providers ->
       exists snap v timestamp,
         dict_get rep name = Some snap
         /\ dict_get snap "provider" = Some (JStr path)
         /\ dict_get snap "total_downloads" = Some v
         /\ is_number v
         /\ dict_get snap "timestamp" = Some (JStr timestamp)
         /\ (dict_keys snap = ["provider"; "total_downloads"; "timestamp"]
             \/ (dict_keys snap = ["provider"; "total_downloads"; "timestamp"; "error"]
                 /\ v = JInt 0
                 /\ dict_get snap "error" = Some (JStr "Failed to fetch data"))).
Proof.
  intros E. unfold Daily.generate_report in E.
  destruct (report_loop_result w Daily.providers [] rep t t' E) as (_ & Hres & Hkeys).
  split.
  - rewrite (Hkeys providers_keys_distinct); [reflexivity|]. intros k _ [].
  - intros name path Hin.
    destruct (Hres providers_keys_distinct name path Hin) as (Hr & ts & Hsnap).
    exists (snapshot_of w path ts). unfold snapshot_of, renders in *.
    destruct (fetched w path) as [d|].
    + exists (attr d "downloads" (JInt 0)), ts.
      repeat split; trivial; [now apply renderable_number|now left].
    + exists (JInt 0), ts.
      repeat split; trivial; [left; now exists 0|right; repeat split].
Qed.

Lemma daily_report_shape_witness :
  dict_keys (match fst (Daily.generate_report aws_only_registry []) with
             | Val rep => rep
             | _ => []
             end)
  = ["aws"; "azure"; "gcp"; "datadog"; "splunk"; "databricks"; "elastic"].
Proof.
  refine (proj1 (daily_report_shape aws_only_registry [] _ _ _)).
  reflexivity.
Defined.

Lemma Forall_dict_set {V : Type} (P : string * V -> Prop)
  (d : list (string * V)) (k : string) (v : V) :
  Forall P d -> P (k, v) -> Forall P (dict_set d k v).
Proof.
  intros Hd Hv. induction Hd as [|[k' v'] d Hx Hd IH]; cbn.
  - now constructor.
  - destruct (String.eqb_spec k' k) as [->|_]; now constructor.
Qed.

Lemma report_loop_totals (w : world) (entries : list (string * string)) :
  forall (rep rep' : Daily.report) (t t' : trace),
    totals_render rep ->
    Daily.report_loop w entries rep t = (Val rep', t') ->
    totals_render rep'.
Proof.
  induction entries as [|[name path] rest IH]; intros rep rep' t t' Hrep H.
  - cbn in H. now injection H as <- _.
  - cbn [Daily.report_loop] in H. unfold bind in H.
    destruct (report_provider_cases w rep name path t)
      as [(Hr & ts & evs & E)|(_ & e & evs & E)];
      rewrite E in H; [|discriminate].
    refine (IH _ _ _ _ _ H). apply Forall_dict_set; [exact Hrep|].
    cbn [snd]. unfold snapshot_of, renders in *.
    destruct (fetched w path) as [d|].
    + exists (attr d "downloads" (JInt 0)). now split.
    + exists (JInt 0). now split.
Qed.

Lemma log_totals_lines (rep : Daily.report) :
  totals_render rep ->
  forall t, exists lines,
    DailyRun.log_totals rep t = (Val tt, t ++ lines)
    /\ List.length lines = List.length rep.
Proof.
  induction 1 as [|[name snap] rep (v & Hv & Hr) _ IH]; intros t.
  - exists []. cbn. now rewrite app_nil_r.
  - cbn [snd] in Hv. unfold renderable in Hr.
    destruct (format_comma v) as [shown| |] eqn:Hf; try discriminate.
    destruct (IH (t ++ [EvLog INFO (name ++ ": " ++ shown ++ " downloads")%string None]))
      as (lines & E & Hlen).
    exists (EvLog INFO (name ++ ": " ++ shown ++ " downloads")%string None :: lines).
    split; [|cbn; now rewrite Hlen].
    cbn [DailyRun.log_totals]. unfold bind, lift, log, emit.
    cbn [subscript]. rewrite Hv, Hf, E. now rewrite <- app_assoc.
Qed.

(** X17. [run_daily_report] returns whenever [generate_report] does: the
    summary lines, one per provider after the heading, always render the
    total they show, and the report is then saved, or the failure to save
    it logged, once.  When [generate_report] raises, the exception passes
    through at once: no summary is logged and nothing is saved. *)
Theorem run_daily_report_follows_generate_report (w : world) (dk : DailyRun.disk)
  (t : trace) :
  (forall rep t1,
      Daily.generate_report w t = (Val rep, t1) ->
      exists lines saved,
        DailyRun.run_daily_report w dk t
        = (Val tt,
           t1 ++ [EvLog INFO (String "010"%char "Provider Download Statistics:") None]
              ++ lines ++ [EvNow; saved])
        /\ List.length lines = 7%nat
        /\ ((exists timestamp,
                saved = EvLog INFO
                          ("Report saved to " ++ DailyRun.report_filename timestamp)%string
                          None)
            \/ saved = EvLog ERROR "Error saving report: " (Some OtherError)))
  /\ (forall e t1,
         Daily.generate_report w t = (Exc e, t1) ->
         DailyRun.run_daily_report w dk t = (Exc e, t1)).
Proof.
  split.
  - intros rep t1 E.
    assert (Htot : totals_render rep).
    { apply (report_loop_totals w Daily.providers [] rep t t1); [constructor|exact E]. }
    assert (Hlen : List.length rep = 7%nat).
    { destruct (report_loop_result w Daily.providers [] rep t t1 E) as (_ & _ & Hk).
      specialize (Hk providers_keys_distinct (fun k _ (H : In k []) => H)).
      unfold dict_keys in Hk. apply (f_equal (@List.length string)) in Hk.
      now rewrite length_map in Hk. }
    destruct (log_totals_lines rep Htot
                (t1 ++ [EvLog INFO (String "010"%char "Provider Download Statistics:") None]))
      as (lines & El & Hl).
    unfold DailyRun.run_daily_report, bind at 1. rewrite E.
    unfold bind at 1, log at 1, emit. unfold bind at 1. rewrite El.
    unfold DailyRun.save_report, bind.
    destruct (DailyRun.write_fails dk _) eqn:Hw.
    + exists lines. eexists. split; [|split; [congruence|right; reflexivity]].
      unfold log, emit. now rewrite <- !app_assoc.
    + exists lines. eexists. split; [|split; [congruence|left; eexists; reflexivity]].
      unfold log, emit. now rewrite <- !app_assoc.
  - intros e t1 E. unfold DailyRun.run_daily_report, bind at 1. now rewrite E.
Qed.

Lemma run_daily_report_follows_generate_report_witness :
  DailyRun.run_daily_report (uniform_registry (JDict [("downloads", JStr "many")]))
    plain_disk []
  = (Exc ValueError,
     [EvLog INFO "Fetching statistics for aws..." None;
      EvGet (Daily.detail_url "hashicorp" "aws");
      EvNow]).
Proof.
  apply (proj2 (run_daily_report_follows_generate_report
                  (uniform_registry (JDict [("downloads", JStr "many")]))
                  plain_disk [])).
  reflexivity.
Defined.

(** X18. [main] of the daily script never raises, whatever the scheduler
    does.  When the first report raises, as it does on a downloads value
    that is not a number, [main] logs one "Unexpected error" line and
    returns: the daily job is never registered and the polling loop never
    entered. *)
Theorem daily_main_swallows_exceptions (scheduler : M unit) (w : world)
  (dk : DailyRun.disk) (t : trace) :
  (forall e, fst (DailyRun.main scheduler w dk t) <> Exc e)
  /\ (forall e t',
         Daily.generate_report w
           (t ++ [EvLog INFO "Starting Terraform Registry Statistics Monitor" None])
         = (Exc e, t') ->
         DailyRun.main scheduler w dk t
         = (Val tt, t' ++ [EvLog ERROR "Unexpected error: " (Some e)])).
Proof.
  split.
  - intros e. unfold DailyRun.main, bind at 1, log at 1, emit.
    apply try_except_all. intros e' u. now eexists _, _.
  - intros e t' H. unfold DailyRun.main, bind at 1, log at 1, emit.
    unfold try_except, bind at 1, DailyRun.run_daily_report, bind at 1.
    rewrite H. reflexivity.
Qed.

Lemma daily_main_swallows_exceptions_witness :
  exists t',
    DailyRun.main (ret tt) (uniform_registry (JDict [("downloads", JNull)]))
      plain_disk []
    = (Val tt, t' ++ [EvLog ERROR "Unexpected error: " (Some TypeError)]).
Proof.
  eexists.
  apply (proj2 (daily_main_swallows_exceptions (ret tt)
                  (uniform_registry (JDict [("downloads", JNull)])) plain_disk [])
           TypeError).
  reflexivity.
Defined.
